(** * deriv_full_bot: candle pipeline, price-action detector and alert gate

    Shallow embedding of [deriv_full_bot.py] (class [FullBrainBot]).

    Conventions of the embedding.
    - A Python [float] price is modelled by the rational it denotes ([Q]);
      comparisons, minima and maxima are then exact.  The arithmetic of the
      trend slope is carried out exactly (no rounding); the general theorems
      below hold whatever the values of the slopes, and the example windows
      have highs and lows in arithmetic progression, whose slopes rounding
      does not change in sign.  Not-a-number and infinite prices are outside
      the model.
    - A [pd.DataFrame] of candles is the list of its rows, oldest first.  The
      column-less frame [pd.DataFrame()] is the empty list.
    - A Python exception is a value [Raise e] of the error monad [result].
    - [datetime] values are integers, in microseconds.
    - Everything the bot does to the outside world (log lines, frames sent
      on the socket, Telegram messages, sleeps) is appended to a trace kept
      in the bot state. *)

From Stdlib Require Import ZArith QArith Qminmax Qabs Ascii Lia.
From stdpp Require Import base option list strings gmap pretty.

Close Scope Q_scope.

(** ** Exceptions *)

Inductive exn : Type :=
  | KeyError
  | IndexError
  | ValueError
  | TypeError
  | DeliveryError.

Inductive result (A : Type) : Type :=
  | Ok (a : A)
  | Raise (e : exn).
Arguments Ok {A} a.
Arguments Raise {A} e.

#[global] Instance result_ret : MRet result := fun _ a => Ok a.
#[global] Instance result_bind : MBind result := fun _ _ k m =>
  match m with
  | Ok a => k a
  | Raise e => Raise e
  end.

Definition raises {A} (m : result A) : Prop := exists e, m = Raise e.

(** ** Comparisons of prices *)

Definition Qltb (x y : Q) : bool :=
  match (x ?= y)%Q with
  | Lt => true
  | _ => false
  end.

Definition Qgtb (x y : Q) : bool := Qltb y x.

(** ** Configuration (module-level constants of the source) *)

Definition PAIRS : list string := ["frxXAUUSD"; "R_75"; "R_75S"].
Definition TIMEFRAMES : list Z := [1; 5; 10]%Z.
Definition CONFIDENCE_THRESHOLD : Z := 5.
Definition RATE_LIMIT_MINUTES : Q := 25.

(** ** Candles and frames *)

Record candle : Type := {
  time : Z;
  open : Q;
  high : Q;
  low : Q;
  close : Q
}.

Definition dataframe : Type := list candle.

(** The pandas operations the bot uses. *)
Module pd.

(** [s.tail(n)]: the last [n] rows (all of them when there are fewer). *)
Definition tail {A} (n : nat) (s : list A) : list A :=
  drop (length s - n) s.

(** [pd.concat([a, b])] *)
Definition concat {A} (a b : list A) : list A := a ++ b.

(** [df[col].tail(n).min()].  Selecting a column of the column-less frame
    raises [KeyError]; [n] is positive at every call site, so the tail of
    a frame that has rows is never empty. *)
Definition tail_min (col : candle -> Q) (n : nat) (df : dataframe) : result Q :=
  match tail n (col <$> df) with
  | [] => Raise KeyError
  | x :: xs => Ok (foldl Qmin x xs)
  end.

(** [df[col].tail(n).max()] *)
Definition tail_max (col : candle -> Q) (n : nat) (df : dataframe) : result Q :=
  match tail n (col <$> df) with
  | [] => Raise KeyError
  | x :: xs => Ok (foldl Qmax x xs)
  end.

(** [df[col].tail(n).values] *)
Definition tail_values (col : candle -> Q) (n : nat) (df : dataframe) : result (list Q) :=
  match df with
  | [] => Raise KeyError
  | _ => Ok (tail n (col <$> df))
  end.

(** [df[col].iloc[-1]] *)
Definition iloc_last (col : candle -> Q) (df : dataframe) : result Q :=
  match df with
  | [] => Raise KeyError
  | _ =>
      match last (col <$> df) with
      | Some x => Ok x
      | None => Raise IndexError
      end
  end.

End pd.

(** The numpy and scipy operations the bot uses. *)
Module np.

(** [np.arange(n)] *)
Definition arange (n : nat) : list Q := (fun i => inject_Z (Z.of_nat i)) <$> seq 0 n.

Definition sum (l : list Q) : Q := foldr Qplus 0%Q l.

Definition mean (l : list Q) : Q := (sum l / inject_Z (Z.of_nat (length l)))%Q.

Definition all_equal (l : list Q) : bool :=
  match l with
  | [] => true
  | x :: xs => forallb (Qeq_bool x) xs
  end.

(** [scipy.stats.linregress(x, y).slope].  The library rejects empty
    inputs and constant [x]; two arrays of different lengths cannot be
    paired, which is a [ValueError] as well.  Otherwise the slope is the
    covariance of [x] and [y] over the variance of [x].  (Releases of the
    library that broadcast their arguments accept a [y] of length one; the
    statements below that rest on the mismatch take [y] of length two at
    least, where every release raises.) *)
Definition linregress_slope (x y : list Q) : result Q :=
  if bool_decide (length x = 0) || bool_decide (length y = 0) then Raise ValueError
  else if all_equal x && bool_decide (1 < length x) then Raise ValueError
  else if negb (bool_decide (length x = length y)) then Raise ValueError
  else
    let xmean := mean x in
    let ymean := mean y in
    let ssxm := mean ((fun a => (a - xmean) * (a - xmean))%Q <$> x) in
    let ssxym := mean (zip_with (fun a b => (a - xmean) * (b - ymean))%Q x y) in
    Ok (ssxym / ssxm)%Q.

End np.

(** ** Price-action tools *)

Definition calculate_support_resistance (df : dataframe) (window : nat) : result (Q * Q) :=
  lo ← pd.tail_min low window df;
  hi ← pd.tail_max high window df;
  Ok (lo, hi).

Definition identify_zones (df : dataframe) : result (Q * Q) :=
  lo ← pd.tail_min low 10 df;
  hi ← pd.tail_max high 10 df;
  Ok (lo, hi).

Definition detect_trendline (df : dataframe) : result (Q * Q) :=
  highs ← pd.tail_values high 10 df;
  lows ← pd.tail_values low 10 df;
  let x := np.arange 10 in
  slope_high ← np.linregress_slope x highs;
  slope_low ← np.linregress_slope x lows;
  Ok (slope_high, slope_low).

Definition detect_breakout (df : dataframe) : result (option string) :=
  if bool_decide (length df < 20) then Ok None
  else
    hi ← pd.tail_max high 10 df;
    lo ← pd.tail_min low 10 df;
    c ← pd.iloc_last close df;
    if Qgtb c hi then Ok (Some "Breakout Up")
    else if Qltb c lo then Ok (Some "Breakout Down")
    else Ok None.

(** The source condition is
    [c[0] < c[2] > c[4] and c[2] > c[0] and c[2] > c[4]]; the chained
    comparison [a < b > c] is [a < b and b > c]. *)
Definition head_shoulders_cond (c0 c2 c4 : Q) : bool :=
  (Qltb c0 c2 && Qgtb c2 c4) && Qgtb c2 c0 && Qgtb c2 c4.

Definition detect_head_shoulders (df : dataframe) : result (option string) :=
  if bool_decide (length df < 7) then Ok None
  else
    c ← pd.tail_values close 7 df;
    match c !! 0, c !! 2, c !! 4 with
    | Some c0, Some c2, Some c4 =>
        if head_shoulders_cond c0 c2 c4 then Ok (Some "H&S pattern") else Ok None
    | _, _, _ => Raise IndexError
    end.

(** ** The detector *)

Inductive direction : Type := LONG | SHORT.

(** The dictionary [{"type": .., "entry": .., "sl": .., "tp": ..}]. *)
Record signal : Type := {
  type : direction;
  entry : Q;
  sl : Q;
  tp : Q
}.

(** The local variables of [combine_price_action_factors] once its five
    sub-computations have run, with the latest close. *)
Record factors : Type := {
  support : Q;
  resistance : Q;
  demand : Q;
  supply : Q;
  slope_high : Q;
  slope_low : Q;
  breakout : option string;
  hs_pattern : option string;
  last_close : Q
}.

(** Lines 63 to 67 of the source, and the read of [df["close"].iloc[-1]]. *)
Definition price_action_factors (df : dataframe) : result factors :=
  '(support, resistance) ← calculate_support_resistance df 20;
  '(demand, supply) ← identify_zones df;
  '(slope_high, slope_low) ← detect_trendline df;
  breakout ← detect_breakout df;
  hs_pattern ← detect_head_shoulders df;
  c ← pd.iloc_last close df;
  Ok {| support := support; resistance := resistance;
        demand := demand; supply := supply;
        slope_high := slope_high; slope_low := slope_low;
        breakout := breakout; hs_pattern := hs_pattern;
        last_close := c |}.

(** Truthiness of an optional non-empty string. *)
Definition truthy (o : option string) : bool :=
  match o with
  | Some s => negb (String.eqb s "")
  | None => false
  end.

Definition points (b : bool) (n : Z) : Z := if b then n else 0%Z.

(** Lines 69 to 75: the additive confidence score. *)
Definition confidence (f : factors) : Z :=
  (points (Qgtb (last_close f) (support f)) 1
   + points (Qltb (last_close f) (resistance f)) 1
   + points (truthy (breakout f)) 2
   + points (truthy (hs_pattern f)) 2
   + points (Qgtb (slope_high f) 0) 1
   + points (Qltb (slope_low f) 0) 1)%Z.

(** Lines 77 to 82: the emission rule. *)
Definition emission (f : factors) : option signal :=
  if bool_decide (CONFIDENCE_THRESHOLD <= confidence f)%Z then
    if Qgtb (last_close f) (resistance f) then
      Some {| type := LONG; entry := last_close f; sl := support f; tp := resistance f |}
    else if Qltb (last_close f) (support f) then
      Some {| type := SHORT; entry := last_close f; sl := resistance f; tp := support f |}
    else None
  else None.

Definition combine_price_action_factors (df : dataframe) : result (option signal) :=
  f ← price_action_factors df;
  Ok (emission f).

(** ** Formatting *)

(** Nearest integer to a rational, ties to even: the rounding of
    [format(x, ".2f")], which rounds the exact value of the float. *)
Definition round_half_even (q : Q) : Z :=
  let a := Qnum q in
  let b := Z.pos (Qden q) in
  let fl := (a / b)%Z in
  match (2 * (a mod b) ?= b)%Z with
  | Lt => fl
  | Gt => (fl + 1)%Z
  | Eq => if Z.even fl then fl else (fl + 1)%Z
  end.

Definition pad2 (n : Z) : string :=
  if bool_decide (n < 10)%Z then "0" +:+ pretty n else pretty n.

(** [f"{x:.2f}"] *)
Definition format_2f (x : Q) : string :=
  let n := round_half_even (Qabs x * 100)%Q in
  (if Qltb x 0 then "-" else "") +:+ pretty (n / 100)%Z +:+ "." +:+ pad2 (n mod 100)%Z.

Definition type_str (d : direction) : string :=
  match d with
  | LONG => "LONG"
  | SHORT => "SHORT"
  end.

(** Line 86: [f"{pair}_{tf}_{signal['type']}_{signal['entry']:.2f}"] *)
Definition dedup_key (pair : string) (tf : Z) (s : signal) : string :=
  pair +:+ "_" +:+ pretty tf +:+ "_" +:+ type_str (type s) +:+ "_" +:+ format_2f (entry s).

(** ** Time *)

Definition MICROSECOND : Z := 1.
Definition SECOND : Z := 1000000.
Definition MINUTE : Z := 60 * SECOND.
Definition HOUR : Z := 60 * MINUTE.
Definition DAY : Z := 24 * HOUR.

(** [td.seconds] of the [timedelta] of [d] microseconds.  A [timedelta] is
    normalised to days, seconds in [0, 86400) and microseconds in
    [0, 1000000); [.seconds] is the seconds component alone. *)
Definition timedelta_seconds (d : Z) : Z := ((d / SECOND) mod 86400)%Z.

(** [t.strftime('%H:%M UTC')] *)
Definition strftime_HM (t : Z) : string :=
  pad2 ((t / HOUR) mod 24)%Z +:+ ":" +:+ pad2 ((t / MINUTE) mod 60)%Z +:+ " UTC".

(** ** The bot *)

Definition DERIV_APP_ID : string := "1089".
Definition DERIV_TOKEN : string := "YOUR_DERIV_TOKEN".
Definition DERIV_WS : string := "wss://ws.binaryws.com/websockets/v3?app_id=" +:+ DERIV_APP_ID.
Definition CHAT_ID : string := "YOUR_CHAT_ID".

(** Frames the bot sends on the socket. *)
Inductive request : Type :=
  | Authorize (token : string)
  | TicksHistory (pair : string) (adjust_start_time count granularity subscribe : Z).

Inductive level : Type := INFO | WARNING | ERROR.

(** What the bot does to the outside world. *)
Inductive effect : Type :=
  | Log (lvl : level) (msg : string) (detail : option exn)
  | Connect (url : string)
  | WsSend (r : request)
  | TelegramSend (chat_id text : string) (parse_mode : option string)
  | Sleep (seconds : Z).

(** The attributes of [FullBrainBot]; [ws] counts the [WebSocketApp]
    objects created so far (0 stands for [None]). *)
Record bot : Type := {
  ws : nat;
  active : bool;
  data : gmap string (gmap Z dataframe);
  sent_signals : gmap string Z;
  connected_sent : bool;
  trace : list effect
}.

Definition set_ws (n : nat) (st : bot) : bot :=
  {| ws := n; active := active st; data := data st;
     sent_signals := sent_signals st; connected_sent := connected_sent st;
     trace := trace st |}.

Definition set_data (d : gmap string (gmap Z dataframe)) (st : bot) : bot :=
  {| ws := ws st; active := active st; data := d;
     sent_signals := sent_signals st; connected_sent := connected_sent st;
     trace := trace st |}.

Definition set_sent_signals (m : gmap string Z) (st : bot) : bot :=
  {| ws := ws st; active := active st; data := data st;
     sent_signals := m; connected_sent := connected_sent st;
     trace := trace st |}.

Definition set_connected_sent (b : bool) (st : bot) : bot :=
  {| ws := ws st; active := active st; data := data st;
     sent_signals := sent_signals st; connected_sent := b;
     trace := trace st |}.

Definition emit (e : effect) (st : bot) : bot :=
  {| ws := ws st; active := active st; data := data st;
     sent_signals := sent_signals st; connected_sent := connected_sent st;
     trace := trace st ++ [e] |}.

(** [FullBrainBot.__init__] *)
Definition init : bot :=
  {| ws := 0; active := true;
     data := list_to_map ((fun pair => (pair, list_to_map ((fun tf => (tf, [])) <$> TIMEFRAMES))) <$> PAIRS);
     sent_signals := ∅;
     connected_sent := false;
     trace := [] |}.

(** What a handler reads from its surroundings while it runs: the
    successive values of [datetime.now()] in [send_alert] (line 87, line 89
    and line 94) and whether [bot.send_message] succeeds. *)
Record env : Type := {
  now_check : Z;
  now_stamp : Z;
  now_text : Z;
  tg_ok : bool
}.

Definition NL : string := String "010"%char "".

(** Lines 90 to 94. *)
Definition alert_text (pair : string) (tf : Z) (s : signal) (now : Z) : string :=
  "📈 *" +:+ pair +:+ " " +:+ pretty tf +:+ "min " +:+ type_str (type s) +:+ "*" +:+ NL
  +:+ "➡️ Entry: `" +:+ format_2f (entry s) +:+ "`" +:+ NL
  +:+ "🛑 Stop: `" +:+ format_2f (sl s) +:+ "`" +:+ NL
  +:+ "🎯 Target: `" +:+ format_2f (tp s) +:+ "`" +:+ NL
  +:+ "⏰ " +:+ strftime_HM now.

(** Line 87: the key is known and the minutes elapsed, as the source
    computes them, are below the limit. *)
Definition rate_limited (E : env) (key : string) (st : bot) : bool :=
  match sent_signals st !! key with
  | Some last =>
      Qltb (inject_Z (timedelta_seconds (now_check E - last)) / 60)%Q RATE_LIMIT_MINUTES
  | None => false
  end.

(** Lines 95 to 98. *)
Definition deliver (E : env) (text : string) (st : bot) : bot :=
  if tg_ok E then emit (TelegramSend CHAT_ID text (Some "Markdown")) st
  else emit (Log ERROR "TG error: " (Some DeliveryError)) st.

Definition send_alert (E : env) (pair : string) (tf : Z) (s : signal) (st : bot) : bot :=
  let key := dedup_key pair tf s in
  if rate_limited E key st then st
  else
    let st1 := set_sent_signals (<[key := now_stamp E]> (sent_signals st)) st in
    deliver E (alert_text pair tf s (now_text E)) st1.

(** ** Feed events *)

(** A decoded JSON document, as [json.loads] returns it.  The fields of an
    object are the items of the resulting [dict]: its keys are distinct. *)
#[local] Unset Elimination Schemes.
Inductive json : Type :=
  | JNull
  | JBool (b : bool)
  | JInt (z : Z)
  | JFloat (q : Q)
  | JStr (s : string)
  | JArr (items : list json)
  | JObj (fields : list (string * json)).
#[local] Set Elimination Schemes.

(** Python's conversions of a [str] to a number: [int(s)] and [float(s)],
    [None] where they raise [ValueError]. *)
Record parsers : Type := {
  str_to_int : string -> option Z;
  str_to_float : string -> option Q
}.

Fixpoint assoc (k : string) (fields : list (string * json)) : option json :=
  match fields with
  | [] => None
  | (k', v) :: rest => if String.eqb k k' then Some v else assoc k rest
  end.

(** [k in d] *)
Definition py_in (k : string) (d : json) : result bool :=
  match d with
  | JObj fields => Ok (bool_decide (is_Some (assoc k fields)))
  | JArr items =>
      Ok (existsb (fun j => match j with JStr s => String.eqb s k | _ => false end) items)
  | JStr s => Ok (bool_decide (is_Some (String.index 0 k s)))
  | _ => Raise TypeError
  end.

(** [d[k]] for a string [k] *)
Definition py_getitem (d : json) (k : string) : result json :=
  match d with
  | JObj fields =>
      match assoc k fields with
      | Some v => Ok v
      | None => Raise KeyError
      end
  | _ => Raise TypeError
  end.

(** [int(v)] *)
Definition py_int (P : parsers) (v : json) : result Z :=
  match v with
  | JInt z => Ok z
  | JBool b => Ok (if b then 1 else 0)%Z
  | JFloat q => Ok (Z.quot (Qnum q) (Z.pos (Qden q)))
  | JStr s =>
      match str_to_int P s with
      | Some z => Ok z
      | None => Raise ValueError
      end
  | _ => Raise TypeError
  end.

(** [float(v)] *)
Definition py_float (P : parsers) (v : json) : result Q :=
  match v with
  | JInt z => Ok (inject_Z z)
  | JBool b => Ok (if b then 1 else 0)%Q
  | JFloat q => Ok q
  | JStr s =>
      match str_to_float P s with
      | Some q => Ok q
      | None => Raise ValueError
      end
  | _ => Raise TypeError
  end.

(** [datetime.fromtimestamp(v)], in a time zone of offset 0. *)
Definition fromtimestamp (v : json) : result Z :=
  match v with
  | JInt z => Ok (z * SECOND)%Z
  | JBool b => Ok (if b then SECOND else 0)%Z
  | JFloat q => Ok (round_half_even (q * inject_Z SECOND)%Q)
  | _ => Raise TypeError
  end.

(** [data["ohlc"][key]] *)
Definition ohlc_field (data : json) (key : string) : result json :=
  ohlc ← py_getitem data "ohlc";
  py_getitem ohlc key.

Definition in_PAIRS (pair : json) : option string :=
  match pair with
  | JStr s => if bool_decide (s ∈ PAIRS) then Some s else None
  | _ => None
  end.

(** Lines 131 to 139: [None] is the early [return]. *)
Definition normalize (P : parsers) (data : json) : result (option (string * Z * candle)) :=
  has_ohlc ← py_in "ohlc" data;
  if negb has_ohlc then Ok None
  else
    pair ← ohlc_field data "symbol";
    granularity ← ohlc_field data "granularity";
    g ← py_int P granularity;
    let tf := (g / 60)%Z in
    match bool_decide (tf ∈ TIMEFRAMES), in_PAIRS pair with
    | true, Some symbol =>
        t ← ohlc_field data "epoch" ≫= fromtimestamp;
        o ← ohlc_field data "open" ≫= py_float P;
        h ← ohlc_field data "high" ≫= py_float P;
        l ← ohlc_field data "low" ≫= py_float P;
        c ← ohlc_field data "close" ≫= py_float P;
        Ok (Some (symbol, tf, {| time := t; open := o; high := h; low := l; close := c |}))
    | _, _ => Ok None
    end.

(** [self.data[pair][tf]] *)
Definition series (pair : string) (tf : Z) (st : bot) : result dataframe :=
  match data st !! pair with
  | Some by_tf =>
      match by_tf !! tf with
      | Some df => Ok df
      | None => Raise KeyError
      end
  | None => Raise KeyError
  end.

(** The rolling-window capacity: the literal of [.tail(100)]. *)
Definition CAPACITY : nat := 100.

(** [pd.concat([df, new_candle]).tail(100)] *)
Definition append (df : dataframe) (c : candle) : dataframe :=
  pd.tail CAPACITY (pd.concat df [c]).

(** Line 140. *)
Definition store_candle (pair : string) (tf : Z) (c : candle) (st : bot) : result bot :=
  df ← series pair tf st;
  match data st !! pair with
  | Some by_tf => Ok (set_data (<[pair := <[tf := append df c]> by_tf]> (data st)) st)
  | None => Raise KeyError
  end.

Definition log_message_error (e : exn) (st : bot) : bot :=
  emit (Log ERROR "Message error: " (Some e)) st.

(** [on_message]; [decoded] is the outcome of [json.loads(message)]. *)
Definition on_message (P : parsers) (E : env) (decoded : result json) (st : bot) : bot :=
  match decoded ≫= normalize P with
  | Raise e => log_message_error e st
  | Ok None => st
  | Ok (Some (symbol, tf, new_candle)) =>
      match store_candle symbol tf new_candle st with
      | Raise e => log_message_error e st
      | Ok st1 =>
          match series symbol tf st1 ≫= combine_price_action_factors with
          | Raise e => log_message_error e st1
          | Ok None => st1
          | Ok (Some s) => send_alert E symbol tf s st1
          end
      end
  end.

(** ** Connection handlers *)

Definition subscriptions : list request :=
  pair ← PAIRS; tf ← TIMEFRAMES; [TicksHistory pair 1 100 (tf * 60)%Z 1].

(** [on_open]; the second component is the exception it leaves with, if
    any ([bot.send_message] is not guarded here). *)
Definition on_open (E : env) (st : bot) : bot * option exn :=
  let st1 := emit (Log INFO "Connected to Deriv WS" None) st in
  let st2 := emit (WsSend (Authorize DERIV_TOKEN)) st1 in
  let subscribe st := foldl (fun st r => emit (WsSend r) st) st subscriptions in
  if connected_sent st2 then (subscribe st2, None)
  else if tg_ok E then
    let st3 := emit (TelegramSend CHAT_ID "✅ Bot Connected and ready to analyze signals" None) st2 in
    (subscribe (set_connected_sent true st3), None)
  else (st2, Some DeliveryError).

Definition on_error (error : string) (st : bot) : bot :=
  emit (Log WARNING ("WS error ignored: " +:+ error) None) st.

Definition on_close (close_status : Z) (close_msg : string) (st : bot) : bot :=
  emit (Sleep 5) (emit (Log INFO ("Disconnected: " +:+ close_msg) None) st).

(** What the socket library reports to the handlers during one
    [run_forever]. *)
Inductive ws_event : Type :=
  | EvOpen (E : env)
  | EvMessage (E : env) (decoded : result json)
  | EvError (error : string)
  | EvClose (close_status : Z) (close_msg : string).

(** The library calls a handler and, when the handler raises, reports the
    exception to [on_error]. *)
Definition dispatch (P : parsers) (st : bot) (ev : ws_event) : bot :=
  match ev with
  | EvOpen E =>
      match on_open E st with
      | (st1, None) => st1
      | (st1, Some _) => on_error "callback" st1
      end
  | EvMessage E decoded => on_message P E decoded st
  | EvError error => on_error error st
  | EvClose close_status close_msg => on_close close_status close_msg st
  end.

(** One [run_forever]: the events it delivers and the exception it ends
    with, if any. *)
Record session : Type := {
  events : list ws_event;
  crash : option exn
}.

(** One turn of the loop of [ws_thread]. *)
Definition connect_once (P : parsers) (st : bot) (s : session) : bot :=
  let st1 := emit (Connect DERIV_WS) (set_ws (S (ws st)) st) in
  let st2 := foldl (dispatch P) st1 (events s) in
  match crash s with
  | None => st2
  | Some e => emit (Sleep 5) (emit (Log ERROR "WS crash: " (Some e)) st2)
  end.

(** [ws_thread], for as many turns as there are sessions. *)
Definition ws_thread (P : parsers) (sessions : list session) (st : bot) : bot :=
  foldl (fun st s => if active st then connect_once P st s else st) st sessions.

(** ** A parser of plain decimal literals

    An instance of [parsers], used in the examples: an optional sign,
    digits and, for [float], an optional fractional part. *)
Module Decimal.

Definition digit (a : ascii) : option Z :=
  let n := Z.of_nat (nat_of_ascii a) in
  if bool_decide (48 <= n <= 57)%Z then Some (n - 48)%Z else None.

Fixpoint digits (s : string) (acc : Z) : option Z :=
  match s with
  | EmptyString => Some acc
  | String a rest => d ← digit a; digits rest (10 * acc + d)%Z
  end.

Definition natural (s : string) : option Z :=
  match s with
  | EmptyString => None
  | _ => digits s 0
  end.

Definition int (s : string) : option Z :=
  match s with
  | String "-" rest => Z.opp <$> natural rest
  | _ => natural s
  end.

Fixpoint split_dot (s : string) : string * option string :=
  match s with
  | EmptyString => (EmptyString, None)
  | String "." rest => (EmptyString, Some rest)
  | String a rest => let '(i, f) := split_dot rest in (String a i, f)
  end.

Definition unsigned (s : string) : option Q :=
  match split_dot s with
  | (i, None) => inject_Z <$> natural i
  | (i, Some f) =>
      n ← natural i; m ← natural f;
      Some (inject_Z n + inject_Z m / inject_Z (10 ^ Z.of_nat (String.length f)))%Q
  end.

Definition float (s : string) : option Q :=
  match s with
  | String "-" rest => Qopp <$> unsigned rest
  | _ => unsigned s
  end.

Definition P : parsers := {| str_to_int := int; str_to_float := float |}.

End Decimal.

(** ** Properties and inputs used in the statements *)

Definition is_min (m : Q) (l : list Q) : Prop :=
  m ∈ l ∧ Forall (fun x => (m <= x)%Q) l.

Definition is_max (m : Q) (l : list Q) : Prop :=
  m ∈ l ∧ Forall (fun x => (x <= m)%Q) l.

(** The signals of lines 79 and 81. *)
Definition long_signal (f : factors) : signal :=
  {| type := LONG; entry := last_close f; sl := support f; tp := resistance f |}.

Definition short_signal (f : factors) : signal :=
  {| type := SHORT; entry := last_close f; sl := resistance f; tp := support f |}.

(** A candle is well formed when its low does not exceed its high. *)
Definition well_formed (c : candle) : Prop := (low c <= high c)%Q.

Definition bar (h l c : Z) : candle :=
  {| time := 0; open := inject_Z c; high := inject_Z h; low := inject_Z l; close := inject_Z c |}.

(** Twenty well-formed candles: constant lows, rising highs, a peak in the
    closes five candles back and a last close above every high. *)
Definition rising_window : dataframe :=
  ((fun i => bar (111 + Z.of_nat i) 100 105) <$> seq 0 13)
  ++ [bar 124 100 105; bar 125 100 105; bar 126 100 110; bar 127 100 105;
      bar 128 100 105; bar 129 100 105; bar 130 100 132].

(** Twenty candles whose lows lie above their highs. *)
Definition inverted_window : dataframe :=
  ((fun i => bar (Z.of_nat i) (100 - Z.of_nat i) 1) <$> seq 0 13)
  ++ [bar 13 87 1; bar 14 86 1; bar 15 85 2; bar 16 84 1;
      bar 17 83 1; bar 18 82 1; bar 19 81 50].

Definition two_candles : dataframe := [bar 2 1 1; bar 3 1 2].

(** The same surroundings with another outcome of the delivery. *)
Definition with_tg_ok (b : bool) (E : env) : env :=
  {| now_check := now_check E; now_stamp := now_stamp E;
     now_text := now_text E; tg_ok := b |}.

(** Surroundings in which every clock reading is [t]. *)
Definition at_time (t : Z) (ok : bool) : env :=
  {| now_check := t; now_stamp := t; now_text := t; tg_ok := ok |}.

Definition gold_long : signal :=
  {| type := LONG; entry := 132; sl := 100; tp := 130 |}.

(** The bot after a first alert for [gold_long], sent at time 0. *)
Definition after_first_alert : bot :=
  send_alert (at_time 0 true) "frxXAUUSD" 5 gold_long init.

(** One of the numeric fields of an ohlc event is missing or cannot be
    converted. *)
Definition field_fails (P : parsers) (data : json) : Prop :=
  raises (ohlc_field data "granularity" ≫= py_int P)
  \/ raises (ohlc_field data "epoch" ≫= fromtimestamp)
  \/ raises (ohlc_field data "open" ≫= py_float P)
  \/ raises (ohlc_field data "high" ≫= py_float P)
  \/ raises (ohlc_field data "low" ≫= py_float P)
  \/ raises (ohlc_field data "close" ≫= py_float P).

Definition ohlc_event (symbol : string) (granularity close : json) : json :=
  JObj [("ohlc", JObj [("symbol", JStr symbol); ("granularity", granularity);
                       ("epoch", JInt 1700000000);
                       ("open", JStr "1.5"); ("high", JStr "2.5");
                       ("low", JStr "0.5"); ("close", close)])].

Definition is_message (ev : ws_event) : bool :=
  match ev with
  | EvMessage _ _ => true
  | _ => false
  end.

(** No feed event is delivered during these sessions. *)
Definition quiet (sessions : list session) : Prop :=
  Forall (fun s => Forall (fun ev => is_message ev = false) (events s)) sessions.

(** The bot once it holds a candle of R_75 at one minute. *)
Definition streaming : bot :=
  on_message Decimal.P (at_time 0 true) (Ok (ohlc_event "R_75" (JInt 60) (JStr "1.25"))) init.

(** A transport error and a close, then a second connection that opens. *)
Definition reconnect_gap : list session :=
  [ {| events := [EvError "connection reset"; EvClose 1006 "lost"]; crash := None |};
    {| events := [EvOpen (at_time (5 * SECOND) true)]; crash := None |} ].

(** The close of a candle lies within its own range. *)
Definition closes_in_range (c : candle) : Prop :=
  (low c <= close c)%Q /\ (close c <= high c)%Q.

(** A Telegram message sent by [send_alert] (with a parse mode). *)
Definition is_alert (e : effect) : bool :=
  match e with
  | TelegramSend _ _ (Some _) => true
  | _ => false
  end.

(** The Telegram message sent by [on_open] (without a parse mode). *)
Definition is_connected_note (e : effect) : bool :=
  match e with
  | TelegramSend _ _ None => true
  | _ => false
  end.

Definition subscribed (pair : string) (tf : Z) : Prop :=
  pair ∈ PAIRS /\ tf ∈ TIMEFRAMES.

(** The store holds a series of at most [CAPACITY] candles for every
    subscribed key, and none for any other key. *)
Definition store_ok (st : bot) : Prop :=
  forall pair tf,
    (subscribed pair tf -> exists df, series pair tf st = Ok df /\ length df <= CAPACITY)
    /\ (~ subscribed pair tf -> series pair tf st = Raise KeyError).

(** The flag [connected_sent] tells whether the notification of [on_open]
    is in the trace, where it occurs once at most. *)
Definition note_ok (st : bot) : Prop :=
  length (filter (fun e => is_connected_note e = true) (trace st))
  = if connected_sent st then 1 else 0.


(** A feed event that yields a candle yields one that closes within its
    own range. *)
Definition in_range_event (P : parsers) (ev : ws_event) : Prop :=
  match ev with
  | EvMessage _ decoded =>
      forall symbol tf c,
        decoded ≫= normalize P = Ok (Some (symbol, tf, c)) -> closes_in_range c
  | _ => True
  end.

Definition in_range_feed (P : parsers) (sessions : list session) : Prop :=
  Forall (fun s => Forall (in_range_event P) (events s)) sessions.

(** No key has been stamped and no alert has been sent. *)
Definition silent (st : bot) : Prop :=
  sent_signals st = ∅ /\ Forall (fun e => is_alert e = false) (trace st).

(** Two feed events for R_75 whose candles close within their range. *)
Definition in_range_sessions : list session :=
  [ {| events := [EvOpen (at_time 0 true);
                  EvMessage (at_time 0 true) (Ok (ohlc_event "R_75" (JInt 60) (JStr "1.25")));
                  EvMessage (at_time MINUTE true) (Ok (ohlc_event "R_75" (JInt 60) (JStr "1.5")));
                  EvClose 1000 "bye"];
       crash := None |} ].


(** ** Order on prices *)

Lemma Qltb_lt (x y : Q) : Qltb x y = true <-> (x < y)%Q.
Proof.
  unfold Qltb. rewrite Qlt_alt.
  destruct (x ?= y)%Q; split; intros H; congruence.
Qed.

Lemma Qltb_ge (x y : Q) : Qltb x y = false <-> (y <= x)%Q.
Proof.
  rewrite <- not_true_iff_false, Qltb_lt. split.
  - apply Qnot_lt_le.
  - apply Qle_not_lt.
Qed.

Lemma Qgtb_gt (x y : Q) : Qgtb x y = true <-> (y < x)%Q.
Proof. apply Qltb_lt. Qed.

Lemma Qgtb_le (x y : Q) : Qgtb x y = false <-> (x <= y)%Q.
Proof. apply Qltb_ge. Qed.

(** ** Minima and maxima of a column *)

Lemma Qmin_cases (x y : Q) : Qmin x y = x \/ Qmin x y = y.
Proof.
  unfold Qmin, GenericMinMax.gmin. destruct (x ?= y)%Q; auto.
Qed.

Lemma Qmax_cases (x y : Q) : Qmax x y = x \/ Qmax x y = y.
Proof.
  unfold Qmax, GenericMinMax.gmax. destruct (x ?= y)%Q; auto.
Qed.

Lemma foldl_Qmin_is_min (x : Q) (xs : list Q) : is_min (foldl Qmin x xs) (x :: xs).
Proof.
  revert x. induction xs as [|y ys IH]; intros x; simpl.
  - split; [left | repeat constructor; apply Qle_refl].
  - destruct (IH (Qmin x y)) as [Hin Hle].
    apply Forall_cons in Hle as [Hm Hys].
    split.
    + apply elem_of_cons in Hin as [Hin|Hin].
      * rewrite Hin. destruct (Qmin_cases x y) as [-> | ->].
        -- left.
        -- right; left.
      * right; right; exact Hin.
    + repeat apply Forall_cons_2; [| | exact Hys].
      * eapply Qle_trans; [exact Hm | apply Q.le_min_l].
      * eapply Qle_trans; [exact Hm | apply Q.le_min_r].
Qed.

Lemma foldl_Qmax_is_max (x : Q) (xs : list Q) : is_max (foldl Qmax x xs) (x :: xs).
Proof.
  revert x. induction xs as [|y ys IH]; intros x; simpl.
  - split; [left | repeat constructor; apply Qle_refl].
  - destruct (IH (Qmax x y)) as [Hin Hle].
    apply Forall_cons in Hle as [Hm Hys].
    split.
    + apply elem_of_cons in Hin as [Hin|Hin].
      * rewrite Hin. destruct (Qmax_cases x y) as [-> | ->].
        -- left.
        -- right; left.
      * right; right; exact Hin.
    + repeat apply Forall_cons_2; [| | exact Hys].
      * eapply Qle_trans; [apply Q.le_max_l | exact Hm].
      * eapply Qle_trans; [apply Q.le_max_r | exact Hm].
Qed.

Lemma tail_fmap {A B} (f : A -> B) (n : nat) (l : list A) :
  pd.tail n (f <$> l) = f <$> pd.tail n l.
Proof. unfold pd.tail. by rewrite length_fmap, fmap_drop. Qed.

Lemma tail_nil_inv {A} (n : nat) (l : list A) : 0 < n -> pd.tail n l = [] -> l = [].
Proof.
  unfold pd.tail. intros Hn H.
  apply (f_equal length) in H. rewrite length_drop in H. simpl in H.
  destruct l; [done | simpl in H; lia].
Qed.

Lemma tail_length {A} (n : nat) (l : list A) : length (pd.tail n l) = min n (length l).
Proof. unfold pd.tail. rewrite length_drop. lia. Qed.

Lemma tail_min_Ok (col : candle -> Q) (n : nat) (df : dataframe) (m : Q) :
  pd.tail_min col n df = Ok m -> is_min m (col <$> pd.tail n df).
Proof.
  unfold pd.tail_min. rewrite tail_fmap.
  destruct (col <$> pd.tail n df) as [|x xs]; [done |].
  intros [= <-]. apply foldl_Qmin_is_min.
Qed.

Lemma tail_max_Ok (col : candle -> Q) (n : nat) (df : dataframe) (m : Q) :
  pd.tail_max col n df = Ok m -> is_max m (col <$> pd.tail n df).
Proof.
  unfold pd.tail_max. rewrite tail_fmap.
  destruct (col <$> pd.tail n df) as [|x xs]; [done |].
  intros [= <-]. apply foldl_Qmax_is_max.
Qed.

Lemma iloc_last_Ok (col : candle -> Q) (df : dataframe) (x : Q) :
  pd.iloc_last col df = Ok x -> last (col <$> df) = Some x.
Proof.
  unfold pd.iloc_last. destruct df as [|c cs]; [done |].
  destruct (last (col <$> c :: cs)); [by intros [= ->] | done].
Qed.


(** ** The error monad *)

Lemma bind_Ok_inv {A B} (m : result A) (k : A -> result B) (b : B) :
  m ≫= k = Ok b -> exists a, m = Ok a /\ k a = Ok b.
Proof. destruct m as [a|e]; [eauto | done]. Qed.

Tactic Notation "inv_bind" hyp(H) "as" simple_intropattern(p) ident(Hp) :=
  apply bind_Ok_inv in H as (p & Hp & H).

(** ** The price-action tools *)

Lemma tail_min_nonempty (col : candle -> Q) (n : nat) (df : dataframe) :
  0 < n -> df <> [] -> exists m, pd.tail_min col n df = Ok m.
Proof.
  intros Hn Hdf. unfold pd.tail_min.
  destruct (pd.tail n (col <$> df)) as [|x xs] eqn:Ht; [| eauto].
  apply tail_nil_inv in Ht; [| done]. by apply fmap_nil_inv in Ht.
Qed.

Lemma tail_max_nonempty (col : candle -> Q) (n : nat) (df : dataframe) :
  0 < n -> df <> [] -> exists m, pd.tail_max col n df = Ok m.
Proof.
  intros Hn Hdf. unfold pd.tail_max.
  destruct (pd.tail n (col <$> df)) as [|x xs] eqn:Ht; [| eauto].
  apply tail_nil_inv in Ht; [| done]. by apply fmap_nil_inv in Ht.
Qed.

Lemma tail_values_nonempty (col : candle -> Q) (n : nat) (df : dataframe) :
  df <> [] -> pd.tail_values col n df = Ok (pd.tail n (col <$> df)).
Proof. by destruct df. Qed.

Lemma iloc_last_nonempty (col : candle -> Q) (df : dataframe) :
  df <> [] -> exists x, pd.iloc_last col df = Ok x.
Proof.
  intros Hdf. unfold pd.iloc_last. destruct df as [|c cs]; [done |].
  destruct (last (col <$> c :: cs)) eqn:Hl; [eauto |].
  by apply last_None in Hl.
Qed.

Lemma arange_length (n : nat) : length (np.arange n) = n.
Proof. unfold np.arange. by rewrite length_fmap, length_seq. Qed.

Lemma linregress_length_mismatch (y : list Q) :
  1 < length y -> length y <> 10 -> np.linregress_slope (np.arange 10) y = Raise ValueError.
Proof.
  intros Hpos Hne. unfold np.linregress_slope.
  rewrite arange_length.
  rewrite (bool_decide_eq_false_2 (10 = 0)) by lia.
  rewrite (bool_decide_eq_false_2 (length y = 0)) by lia.
  change (np.all_equal (np.arange 10)) with false.
  rewrite (bool_decide_eq_false_2 (10 = length y)) by lia.
  reflexivity.
Qed.

Lemma linregress_ten (y : list Q) :
  length y = 10 -> exists s, np.linregress_slope (np.arange 10) y = Ok s.
Proof.
  intros Hy. unfold np.linregress_slope.
  rewrite arange_length, Hy.
  change (np.all_equal (np.arange 10)) with false.
  simpl. eauto.
Qed.

Lemma detect_trendline_short (df : dataframe) :
  1 < length df < 10 -> detect_trendline df = Raise ValueError.
Proof.
  intros Hlen. unfold detect_trendline.
  assert (df <> []) as Hdf by (intros ->; simpl in Hlen; lia).
  rewrite !tail_values_nonempty by done. simpl.
  rewrite (linregress_length_mismatch (pd.tail 10 (high <$> df)));
    [done | |]; rewrite tail_length, length_fmap; lia.
Qed.

Lemma detect_trendline_ten (df : dataframe) :
  10 <= length df -> exists sh sl, detect_trendline df = Ok (sh, sl).
Proof.
  intros Hlen. unfold detect_trendline.
  assert (df <> []) as Hdf by (intros ->; simpl in Hlen; lia).
  rewrite !tail_values_nonempty by done. simpl.
  destruct (linregress_ten (pd.tail 10 (high <$> df))) as [sh ->];
    [rewrite tail_length, length_fmap; lia |].
  destruct (linregress_ten (pd.tail 10 (low <$> df))) as [sl ->];
    [rewrite tail_length, length_fmap; lia |].
  simpl. eauto.
Qed.

Lemma detect_breakout_short (df : dataframe) :
  length df < 20 -> detect_breakout df = Ok None.
Proof. intros H. unfold detect_breakout. by rewrite bool_decide_eq_true_2. Qed.

Lemma detect_head_shoulders_short (df : dataframe) :
  length df < 7 -> detect_head_shoulders df = Ok None.
Proof. intros H. unfold detect_head_shoulders. by rewrite bool_decide_eq_true_2. Qed.

Lemma detect_breakout_total (df : dataframe) : exists b, detect_breakout df = Ok b.
Proof.
  unfold detect_breakout. case_bool_decide as Hlen; [eauto |].
  assert (df <> []) as Hdf by (intros ->; simpl in Hlen; lia).
  destruct (tail_max_nonempty high 10 df) as [hi ->]; [lia | done |].
  destruct (tail_min_nonempty low 10 df) as [lo ->]; [lia | done |].
  destruct (iloc_last_nonempty close df) as [c ->]; [done |].
  simpl. destruct (Qgtb c hi); [eauto |]. destruct (Qltb c lo); eauto.
Qed.

Lemma head_shoulders_closes (df : dataframe) :
  7 <= length df ->
  exists c0 c2 c4,
    pd.tail 7 (close <$> df) !! 0 = Some c0
    /\ pd.tail 7 (close <$> df) !! 2 = Some c2
    /\ pd.tail 7 (close <$> df) !! 4 = Some c4.
Proof.
  intros Hlen.
  assert (length (pd.tail 7 (close <$> df)) = 7) as Ht
    by (rewrite tail_length, length_fmap; lia).
  destruct (lookup_lt_is_Some_2 (pd.tail 7 (close <$> df)) 0) as [c0 H0]; [lia |].
  destruct (lookup_lt_is_Some_2 (pd.tail 7 (close <$> df)) 2) as [c2 H2]; [lia |].
  destruct (lookup_lt_is_Some_2 (pd.tail 7 (close <$> df)) 4) as [c4 H4]; [lia |].
  eauto 7.
Qed.

Lemma detect_head_shoulders_long (df : dataframe) (c0 c2 c4 : Q) :
  7 <= length df ->
  pd.tail 7 (close <$> df) !! 0 = Some c0 ->
  pd.tail 7 (close <$> df) !! 2 = Some c2 ->
  pd.tail 7 (close <$> df) !! 4 = Some c4 ->
  detect_head_shoulders df =
    if head_shoulders_cond c0 c2 c4 then Ok (Some "H&S pattern") else Ok None.
Proof.
  intros Hlen H0 H2 H4. unfold detect_head_shoulders.
  rewrite bool_decide_eq_false_2 by lia.
  assert (df <> []) as Hdf by (intros ->; simpl in Hlen; lia).
  rewrite tail_values_nonempty by done. simpl.
  by rewrite H0, H2, H4.
Qed.

Lemma detect_head_shoulders_total (df : dataframe) :
  exists h, detect_head_shoulders df = Ok h.
Proof.
  destruct (decide (length df < 7)) as [Hlt|Hge].
  - rewrite detect_head_shoulders_short by done. eauto.
  - destruct (head_shoulders_closes df) as (c0 & c2 & c4 & H0 & H2 & H4); [lia |].
    rewrite (detect_head_shoulders_long df c0 c2 c4) by (done || lia).
    destruct (head_shoulders_cond c0 c2 c4); eauto.
Qed.

Lemma head_shoulders_cond_true (c0 c2 c4 : Q) :
  head_shoulders_cond c0 c2 c4 = true <-> (c0 < c2 /\ c2 > c4 /\ c2 > c0 /\ c2 > c4)%Q.
Proof.
  unfold head_shoulders_cond.
  rewrite !andb_true_iff, !Qgtb_gt, Qltb_lt. tauto.
Qed.

(** ** The detector *)

Lemma price_action_factors_Ok (df : dataframe) (f : factors) :
  price_action_factors df = Ok f ->
  pd.tail_min low 20 df = Ok (support f)
  /\ pd.tail_max high 20 df = Ok (resistance f)
  /\ detect_trendline df = Ok (slope_high f, slope_low f)
  /\ detect_breakout df = Ok (breakout f)
  /\ detect_head_shoulders df = Ok (hs_pattern f)
  /\ pd.iloc_last close df = Ok (last_close f).
Proof.
  unfold price_action_factors, calculate_support_resistance. intros H.
  inv_bind H as [sup res] Hsr.
  inv_bind Hsr as lo Hlo. inv_bind Hsr as hi Hhi. injection Hsr as <- <-.
  inv_bind H as [dem supl] Hz.
  inv_bind H as [sh sl] Ht.
  inv_bind H as b Hb. inv_bind H as h Hh. inv_bind H as c Hc.
  injection H as <-. simpl. auto 7.
Qed.

Lemma price_action_factors_ten (df : dataframe) :
  10 <= length df -> exists f, price_action_factors df = Ok f.
Proof.
  intros Hlen.
  assert (df <> []) as Hdf by (intros ->; simpl in Hlen; lia).
  unfold price_action_factors, calculate_support_resistance, identify_zones.
  destruct (tail_min_nonempty low 20 df) as [sup ->]; [lia | done |].
  destruct (tail_max_nonempty high 20 df) as [res ->]; [lia | done |].
  destruct (tail_min_nonempty low 10 df) as [dem ->]; [lia | done |].
  destruct (tail_max_nonempty high 10 df) as [supl ->]; [lia | done |].
  destruct (detect_trendline_ten df) as (sh & sl & ->); [done |].
  destruct (detect_breakout_total df) as [b ->].
  destruct (detect_head_shoulders_total df) as [h ->].
  destruct (iloc_last_nonempty close df) as [c ->]; [done |].
  simpl. eauto.
Qed.

Lemma price_action_factors_short (df : dataframe) :
  1 < length df < 10 -> price_action_factors df = Raise ValueError.
Proof.
  intros Hlen.
  assert (df <> []) as Hdf by (intros ->; simpl in Hlen; lia).
  unfold price_action_factors, calculate_support_resistance, identify_zones.
  destruct (tail_min_nonempty low 20 df) as [sup ->]; [lia | done |].
  destruct (tail_max_nonempty high 20 df) as [res ->]; [lia | done |].
  destruct (tail_min_nonempty low 10 df) as [dem ->]; [lia | done |].
  destruct (tail_max_nonempty high 10 df) as [supl ->]; [lia | done |].
  by rewrite detect_trendline_short.
Qed.

Lemma points_bounds (b : bool) (n : Z) : (0 <= n)%Z -> (0 <= points b n <= n)%Z.
Proof. destruct b; simpl; lia. Qed.

Lemma confidence_bounds (f : factors) : (0 <= confidence f <= 8)%Z.
Proof.
  unfold confidence.
  pose proof (points_bounds (Qgtb (last_close f) (support f)) 1).
  pose proof (points_bounds (Qltb (last_close f) (resistance f)) 1).
  pose proof (points_bounds (truthy (breakout f)) 2).
  pose proof (points_bounds (truthy (hs_pattern f)) 2).
  pose proof (points_bounds (Qgtb (slope_high f) 0) 1).
  pose proof (points_bounds (Qltb (slope_low f) 0) 1).
  lia.
Qed.

Lemma emission_Some (f : factors) (s : signal) :
  emission f = Some s <->
  (CONFIDENCE_THRESHOLD <= confidence f)%Z
  /\ ((resistance f < last_close f)%Q /\ s = long_signal f
      \/ (last_close f <= resistance f)%Q /\ (last_close f < support f)%Q
         /\ s = short_signal f).
Proof.
  unfold emission, long_signal, short_signal.
  case_bool_decide as Hc.
  - destruct (Qgtb (last_close f) (resistance f)) eqn:Hr.
    + apply Qgtb_gt in Hr. split.
      * intros [= <-]. auto.
      * intros [_ [[_ ->] | (Hle & _)]]; [done |].
        by apply Qle_not_lt in Hle.
    + apply Qgtb_le in Hr.
      destruct (Qltb (last_close f) (support f)) eqn:Hs.
      * apply Qltb_lt in Hs. split.
        -- intros [= <-]. auto.
        -- intros [_ [[Hlt _] | (_ & _ & ->)]]; [| done].
           by apply Qle_not_lt in Hr.
      * apply Qltb_ge in Hs. split; [done |].
        intros [_ [[Hlt _] | (_ & Hlt & _)]].
        -- by apply Qle_not_lt in Hr.
        -- by apply Qle_not_lt in Hs.
  - split; [done | tauto].
Qed.


(** C1.  A signal comes out of the detector only with a confidence of at
    least the threshold: a LONG one (entry the latest close, stop the
    support, target the resistance, these being the least low and the
    greatest high of the last 20 candles) only when the latest close is
    above the resistance, a SHORT one (stop the resistance, target the
    support) only when it is below the support.  In every other case,
    a confidence that reaches the threshold with the close inside the band
    included, the detector returns no signal; nor does it when one of its
    sub-computations raises. *)
Theorem C1_emission_rule (df : dataframe) :
  (forall s, combine_price_action_factors df = Ok (Some s) ->
     exists f, price_action_factors df = Ok f
       /\ is_min (support f) (low <$> pd.tail 20 df)
       /\ is_max (resistance f) (high <$> pd.tail 20 df)
       /\ last (close <$> df) = Some (last_close f)
       /\ (CONFIDENCE_THRESHOLD <= confidence f)%Z
       /\ ((resistance f < last_close f)%Q /\ s = long_signal f
           \/ (last_close f < support f)%Q /\ s = short_signal f))
  /\ (forall f, price_action_factors df = Ok f ->
        ~ ((CONFIDENCE_THRESHOLD <= confidence f)%Z /\ (resistance f < last_close f)%Q) ->
        ~ ((CONFIDENCE_THRESHOLD <= confidence f)%Z /\ (last_close f < support f)%Q) ->
        combine_price_action_factors df = Ok None)
  /\ (forall e, price_action_factors df = Raise e ->
        combine_price_action_factors df = Raise e).
Proof.
  unfold combine_price_action_factors. split; [| split].
  - intros s H. inv_bind H as f Hf. injection H as H.
    exists f. split; [done |].
    apply price_action_factors_Ok in Hf as (Hsup & Hres & _ & _ & _ & Hc).
    apply tail_min_Ok in Hsup. apply tail_max_Ok in Hres.
    apply iloc_last_Ok in Hc.
    apply emission_Some in H as [Hconf Hdir].
    repeat (split; [done |]).
    destruct Hdir as [[Hlt ->] | (_ & Hlt & ->)]; auto.
  - intros f -> Hlong Hshort. simpl. f_equal.
    destruct (emission f) as [s|] eqn:He; [| done].
    apply emission_Some in He as [Hconf [[Hlt _] | (_ & Hlt & _)]]; tauto.
  - by intros e ->.
Qed.

Lemma C1_emission_rule_witness :
  combine_price_action_factors rising_window
    = Ok (Some {| type := LONG; entry := 132; sl := 100; tp := 130 |})
  /\ exists f, price_action_factors rising_window = Ok f
       /\ is_min (support f) (low <$> pd.tail 20 rising_window)
       /\ is_max (resistance f) (high <$> pd.tail 20 rising_window)
       /\ last (close <$> rising_window) = Some (last_close f)
       /\ (CONFIDENCE_THRESHOLD <= confidence f)%Z
       /\ ((resistance f < last_close f)%Q
             /\ {| type := LONG; entry := 132; sl := 100; tp := 130 |} = long_signal f
           \/ (last_close f < support f)%Q
             /\ {| type := LONG; entry := 132; sl := 100; tp := 130 |} = short_signal f).
Proof.
  split.
  - vm_compute. reflexivity.
  - apply (proj1 (C1_emission_rule rising_window)). vm_compute. reflexivity.
Defined.

(** C3.  On a window of two candles the detector does not run to
    completion: [detect_trendline] regresses the highs against ten
    abscissae whatever the length of the window, the regression raises, and
    no confidence is computed. *)
Theorem C3_short_window_raises :
  length two_candles = 2
  /\ detect_breakout two_candles = Ok None
  /\ detect_head_shoulders two_candles = Ok None
  /\ detect_trendline two_candles = Raise ValueError
  /\ price_action_factors two_candles = Raise ValueError
  /\ combine_price_action_factors two_candles = Raise ValueError.
Proof. repeat split; vm_compute; reflexivity. Qed.

(** The same on every window of two to nine candles. *)
Lemma combine_short_window_raises (df : dataframe) :
  1 < length df < 10 -> combine_price_action_factors df = Raise ValueError.
Proof.
  intros H. unfold combine_price_action_factors.
  by rewrite price_action_factors_short.
Qed.

(** From ten candles on the detector runs to completion, its confidence
    lies between 0 and 8, and below 20 candles the breakout adds nothing. *)
Lemma combine_from_ten_candles (df : dataframe) :
  10 <= length df ->
  exists f, price_action_factors df = Ok f
    /\ combine_price_action_factors df = Ok (emission f)
    /\ (0 <= confidence f <= 8)%Z
    /\ (length df < 20 -> breakout f = None).
Proof.
  intros Hlen. destruct (price_action_factors_ten df Hlen) as [f Hf].
  exists f. split; [done |]. split.
  - unfold combine_price_action_factors. by rewrite Hf.
  - split; [apply confidence_bounds |].
    intros Hlt. apply price_action_factors_Ok in Hf as (_ & _ & _ & Hb & _).
    rewrite detect_breakout_short in Hb by done. by injection Hb.
Qed.

(** C7.  On a window of at least seven candles, with [c] the last seven
    closes, the pattern is reported exactly when
    [c[0] < c[2]], [c[2] > c[4]], [c[2] > c[0]] and [c[2] > c[4]], and
    this holds exactly when the first two comparisons do. *)
Theorem C7_head_shoulders_iff (df : dataframe) (Hlen : 7 <= length df) :
  exists c0 c2 c4,
    pd.tail 7 (close <$> df) !! 0 = Some c0
    /\ pd.tail 7 (close <$> df) !! 2 = Some c2
    /\ pd.tail 7 (close <$> df) !! 4 = Some c4
    /\ (detect_head_shoulders df = Ok (Some "H&S pattern")
        <-> (c0 < c2 /\ c2 > c4 /\ c2 > c0 /\ c2 > c4)%Q)
    /\ (detect_head_shoulders df = Ok None
        <-> ~ (c0 < c2 /\ c2 > c4 /\ c2 > c0 /\ c2 > c4)%Q)
    /\ ((c0 < c2 /\ c2 > c4 /\ c2 > c0 /\ c2 > c4)%Q <-> (c0 < c2 /\ c2 > c4)%Q).
Proof.
  destruct (head_shoulders_closes df Hlen) as (c0 & c2 & c4 & H0 & H2 & H4).
  exists c0, c2, c4. repeat (split; [done |]).
  rewrite (detect_head_shoulders_long df c0 c2 c4) by done.
  rewrite <- head_shoulders_cond_true.
  destruct (head_shoulders_cond c0 c2 c4) eqn:Hc.
  - split; [done |]. split; [split; [done | tauto] |].
    apply head_shoulders_cond_true in Hc. tauto.
  - split; [split; done |]. split; [split; [done | done] |].
    split; [done |]. intros [Hlt Hgt].
    assert (head_shoulders_cond c0 c2 c4 = true) as Ht
      by (apply head_shoulders_cond_true; tauto).
    congruence.
Qed.

Lemma C7_head_shoulders_iff_witness :
  7 <= length rising_window
  /\ exists c0 c2 c4,
    pd.tail 7 (close <$> rising_window) !! 0 = Some c0
    /\ pd.tail 7 (close <$> rising_window) !! 2 = Some c2
    /\ pd.tail 7 (close <$> rising_window) !! 4 = Some c4
    /\ (detect_head_shoulders rising_window = Ok (Some "H&S pattern")
        <-> (c0 < c2 /\ c2 > c4 /\ c2 > c0 /\ c2 > c4)%Q)
    /\ (detect_head_shoulders rising_window = Ok None
        <-> ~ (c0 < c2 /\ c2 > c4 /\ c2 > c0 /\ c2 > c4)%Q)
    /\ ((c0 < c2 /\ c2 > c4 /\ c2 > c0 /\ c2 > c4)%Q <-> (c0 < c2 /\ c2 > c4)%Q).
Proof.
  assert (7 <= length rising_window) as H by (vm_compute; lia).
  split; [exact H | apply (C7_head_shoulders_iff rising_window H)].
Defined.

(** ** Support, resistance and the levels of a signal *)

Lemma support_le_resistance (df : dataframe) (sup res : Q) :
  Forall well_formed (pd.tail 20 df) ->
  pd.tail_min low 20 df = Ok sup ->
  pd.tail_max high 20 df = Ok res ->
  (sup <= res)%Q.
Proof.
  intros Hwf Hsup Hres.
  apply tail_min_Ok in Hsup as [Hin Hmin]. apply tail_max_Ok in Hres as [_ Hmax].
  apply list_elem_of_fmap in Hin as (c & _ & Hc).
  rewrite Forall_fmap in Hmin, Hmax.
  rewrite Forall_forall in Hwf, Hmin, Hmax.
  eapply Qle_trans; [apply (Hmin c Hc) |].
  eapply Qle_trans; [apply (Hwf c Hc) | apply (Hmax c Hc)].
Qed.

(** C9, as the code has it.  The detector emits a signal whose stop lies
    above its target on a window whose candles have their lows above their
    highs: the support is then above the resistance. *)
Lemma C9_inverted_candles_counterexample :
  combine_price_action_factors inverted_window
    = Ok (Some {| type := LONG; entry := 50; sl := 81; tp := 19 |})
  /\ pd.tail_min low 20 inverted_window = Ok 81%Q
  /\ pd.tail_max high 20 inverted_window = Ok 19%Q
  /\ ~ (81 <= 19)%Q.
Proof.
  repeat split; try (vm_compute; reflexivity).
  intros H. vm_compute in H. by apply H.
Qed.

(** C9, amended.  When every one of the last 20 candles has its low at or
    below its high, the support does not exceed the resistance, and a
    signal the detector emits has stop <= target < entry when it is LONG
    and entry < target <= stop when it is SHORT. *)
Theorem C9_levels_ordered (df : dataframe) (s : signal)
    (Hwf : Forall well_formed (pd.tail 20 df))
    (Hs : combine_price_action_factors df = Ok (Some s)) :
  exists sup res,
    pd.tail_min low 20 df = Ok sup
    /\ pd.tail_max high 20 df = Ok res
    /\ (sup <= res)%Q
    /\ match type s with
       | LONG => (sl s <= tp s)%Q /\ (tp s < entry s)%Q
       | SHORT => (entry s < tp s)%Q /\ (tp s <= sl s)%Q
       end.
Proof.
  unfold combine_price_action_factors in Hs.
  inv_bind Hs as f Hf. injection Hs as Hs.
  apply price_action_factors_Ok in Hf as (Hsup & Hres & _).
  pose proof (support_le_resistance df _ _ Hwf Hsup Hres) as Hle.
  exists (support f), (resistance f). repeat (split; [done |]).
  apply emission_Some in Hs as [_ [[Hlt ->] | (_ & Hlt & ->)]]; simpl; auto.
Qed.

Lemma C9_levels_ordered_witness :
  Forall well_formed (pd.tail 20 rising_window)
  /\ exists sup res,
    pd.tail_min low 20 rising_window = Ok sup
    /\ pd.tail_max high 20 rising_window = Ok res
    /\ (sup <= res)%Q
    /\ (100 <= 130)%Q /\ (130 < 132)%Q.
Proof.
  assert (Forall well_formed (pd.tail 20 rising_window)) as Hwf.
  { vm_compute. repeat constructor; discriminate. }
  split; [exact Hwf |].
  apply (C9_levels_ordered rising_window
           {| type := LONG; entry := 132; sl := 100; tp := 130 |} Hwf).
  vm_compute. reflexivity.
Defined.


(** ** The rolling series *)

Lemma tail_all {A} (n : nat) (l : list A) : length l <= n -> pd.tail n l = l.
Proof. intros H. unfold pd.tail. by replace (length l - n) with 0 by lia. Qed.

Lemma tail_full_snoc {A} (n : nat) (l : list A) (c : A) :
  length l = n -> 0 < n -> pd.tail n (l ++ [c]) = drop 1 l ++ [c].
Proof.
  intros Hl Hn. unfold pd.tail. rewrite length_app. simpl.
  replace (length l + 1 - n) with 1 by lia.
  apply drop_app_le. lia.
Qed.

Lemma tail_snoc {A} (n : nat) (l : list A) (c : A) :
  0 < n -> pd.tail n (pd.tail n l ++ [c]) = pd.tail n (l ++ [c]).
Proof.
  intros Hn. destruct (decide (length l <= n)) as [Hle|Hgt].
  - by rewrite (tail_all n l).
  - rewrite tail_full_snoc by (rewrite ?tail_length; lia).
    unfold pd.tail. rewrite drop_drop, length_app. simpl.
    rewrite drop_app_le by lia. do 2 f_equal. lia.
Qed.

Lemma foldl_append (cs l : list candle) :
  foldl append (pd.tail CAPACITY l) cs = pd.tail CAPACITY (l ++ cs).
Proof.
  revert l. induction cs as [|c cs IH]; intros l; simpl.
  - by rewrite app_nil_r.
  - unfold append at 2, pd.concat. rewrite tail_snoc by (unfold CAPACITY; lia).
    rewrite IH. by rewrite <- app_assoc.
Qed.

(** C4.  After any sequence of appends to a series that starts empty, the
    series holds at most 100 candles: the last ones appended, in the order
    of their appends.  A further append to a series below capacity adds
    the candle at the end; at capacity it drops the oldest candle, keeps
    the others in order and adds the candle at the end. *)
Theorem C4_series_bounded_fifo (cs : list candle) (c : candle) :
  let s := foldl append [] cs in
  length s <= CAPACITY
  /\ s = pd.tail CAPACITY cs
  /\ append s c = (if bool_decide (length s < CAPACITY) then s else drop 1 s) ++ [c].
Proof.
  pose proof (foldl_append cs []) as Hs. simpl in Hs.
  change (pd.tail CAPACITY []) with (@nil candle) in Hs.
  simpl. rewrite Hs.
  assert (length (pd.tail CAPACITY cs) <= CAPACITY) as Hlen
    by (rewrite tail_length; lia).
  split; [done |]. split; [done |].
  unfold append, pd.concat. case_bool_decide as Hlt.
  - apply tail_all. rewrite length_app. simpl. lia.
  - apply tail_full_snoc; [lia | unfold CAPACITY; lia].
Qed.

(** Line 140 replaces the series of the key by [append] of it. *)
Lemma store_candle_series (pair : string) (tf : Z) (c : candle) (st : bot) (df : dataframe) :
  series pair tf st = Ok df ->
  exists st1, store_candle pair tf c st = Ok st1
    /\ series pair tf st1 = Ok (append df c)
    /\ sent_signals st1 = sent_signals st
    /\ trace st1 = trace st.
Proof.
  unfold store_candle, series. intros H.
  destruct (data st !! pair) as [by_tf|] eqn:Hp; [| done].
  destruct (by_tf !! tf) as [df'|] eqn:Ht; [| done].
  injection H as ->. simpl. eexists. split; [done |]. simpl.
  by rewrite !lookup_insert_eq.
Qed.

(** ** The alert gate *)

Lemma minutes_below_limit (n : Z) :
  Qltb (inject_Z n / 60)%Q RATE_LIMIT_MINUTES = true <-> (n < 1500)%Z.
Proof.
  rewrite Qltb_lt. unfold Qlt, RATE_LIMIT_MINUTES. simpl. lia.
Qed.

Lemma rate_limited_true (E : env) (key : string) (st : bot) :
  rate_limited E key st = true <->
  exists last, sent_signals st !! key = Some last
    /\ (timedelta_seconds (now_check E - last) < 1500)%Z.
Proof.
  unfold rate_limited. destruct (sent_signals st !! key) as [last|].
  - rewrite minutes_below_limit. split.
    + intros H. by exists last.
    + by intros (? & [= <-] & H).
  - split; [done | by intros (? & ? & _)].
Qed.

Lemma timedelta_seconds_same_day (d : Z) :
  (0 <= d < DAY)%Z -> timedelta_seconds d = (d / SECOND)%Z.
Proof.
  intros H. unfold timedelta_seconds. apply Z.mod_small.
  unfold DAY, HOUR, MINUTE, SECOND in *. split.
  - apply Z.div_pos; lia.
  - apply Z.div_lt_upper_bound; lia.
Qed.

(** Within 25 minutes of the recorded time the key is rate limited. *)
Lemma rate_limited_within (E : env) (key : string) (st : bot) (last : Z) :
  sent_signals st !! key = Some last ->
  (0 <= now_check E - last < 25 * MINUTE)%Z ->
  rate_limited E key st = true.
Proof.
  intros Hk Hd. apply rate_limited_true. exists last. split; [done |].
  rewrite timedelta_seconds_same_day by (unfold DAY, HOUR, MINUTE, SECOND in *; lia).
  unfold MINUTE, SECOND in *. apply Z.div_lt_upper_bound; lia.
Qed.

(** From 25 minutes up to one day after the recorded time it is not. *)
Lemma rate_limited_after (E : env) (key : string) (st : bot) (last : Z) :
  sent_signals st !! key = Some last ->
  (25 * MINUTE <= now_check E - last < DAY)%Z ->
  rate_limited E key st = false.
Proof.
  intros Hk Hd. apply not_true_iff_false. rewrite rate_limited_true.
  intros (last' & Hk' & Hlt). rewrite Hk in Hk'. injection Hk' as <-.
  rewrite timedelta_seconds_same_day in Hlt
    by (unfold DAY, HOUR, MINUTE, SECOND in *; lia).
  unfold MINUTE, SECOND in *.
  assert (1500 <= (now_check E - last) / 1000000)%Z
    by (apply Z.div_le_lower_bound; lia).
  lia.
Qed.

(** A whole number of days later the elapsed time counts from zero again. *)
Lemma rate_limited_days_later (E : env) (key : string) (st : bot) (last days : Z) :
  sent_signals st !! key = Some last ->
  (0 <= now_check E - last - days * DAY < 25 * MINUTE)%Z ->
  rate_limited E key st = true.
Proof.
  intros Hk Hd. apply rate_limited_true. exists last. split; [done |].
  unfold timedelta_seconds.
  replace (now_check E - last)%Z
    with ((now_check E - last - days * DAY) + (days * 86400) * SECOND)%Z
    by (unfold DAY, HOUR, MINUTE, SECOND; lia).
  rewrite Z.div_add by (unfold SECOND; lia).
  rewrite Z.add_mod by lia. rewrite Z.mod_mul by lia.
  rewrite Z.add_0_r, Z.mod_mod by lia.
  fold (timedelta_seconds (now_check E - last - days * DAY)).
  rewrite timedelta_seconds_same_day by (unfold DAY, HOUR, MINUTE, SECOND in *; lia).
  unfold MINUTE, SECOND in *. apply Z.div_lt_upper_bound; lia.
Qed.

Lemma send_alert_suppressed (E : env) (pair : string) (tf : Z) (s : signal) (st : bot) :
  rate_limited E (dedup_key pair tf s) st = true -> send_alert E pair tf s st = st.
Proof. intros H. unfold send_alert. by rewrite H. Qed.

Lemma deliver_state (E : env) (text : string) (st : bot) :
  sent_signals (deliver E text st) = sent_signals st
  /\ data (deliver E text st) = data st.
Proof. unfold deliver. by destruct (tg_ok E). Qed.

Lemma send_alert_allowed (E : env) (pair : string) (tf : Z) (s : signal) (st : bot) :
  rate_limited E (dedup_key pair tf s) st = false ->
  sent_signals (send_alert E pair tf s st)
    = <[dedup_key pair tf s := now_stamp E]> (sent_signals st).
Proof.
  intros H. unfold send_alert. rewrite H.
  by rewrite (proj1 (deliver_state _ _ _)).
Qed.

(** C2.  After a first alert at time 0, the same signal is suppressed 10
    minutes later and allowed 26 minutes later; one day and 10 minutes
    later it is suppressed again, the state being left as it was, although
    more than 25 minutes have passed: the source reads [.seconds] of the
    elapsed time, which leaves the days out. *)
Theorem C2_suppressed_one_day_later :
  sent_signals after_first_alert !! "frxXAUUSD_5_LONG_132.00" = Some 0%Z
  /\ send_alert (at_time (10 * MINUTE) true) "frxXAUUSD" 5 gold_long after_first_alert
     = after_first_alert
  /\ sent_signals
       (send_alert (at_time (26 * MINUTE) true) "frxXAUUSD" 5 gold_long after_first_alert)
       !! "frxXAUUSD_5_LONG_132.00" = Some (26 * MINUTE)%Z
  /\ (25 * MINUTE <= DAY + 10 * MINUTE - 0)%Z
  /\ send_alert (at_time (DAY + 10 * MINUTE) true) "frxXAUUSD" 5 gold_long after_first_alert
     = after_first_alert.
Proof. repeat split; vm_compute; (reflexivity || discriminate). Qed.

(** C10.  When a signal passes the gate, its key is stamped whether the
    delivery succeeds or fails, and a signal with the same key that
    arrives within 25 minutes of the stamp is suppressed in both cases. *)
Theorem C10_failed_delivery_consumes_slot
    (E E' : env) (pair pair' : string) (tf tf' : Z) (s s' : signal) (st : bot)
    (Hpass : rate_limited E (dedup_key pair tf s) st = false)
    (Hkey : dedup_key pair' tf' s' = dedup_key pair tf s)
    (Hwin : (0 <= now_check E' - now_stamp E < 25 * MINUTE)%Z) :
  forall ok : bool,
    let st1 := send_alert (with_tg_ok ok E) pair tf s st in
    sent_signals st1 = <[dedup_key pair tf s := now_stamp E]> (sent_signals st)
    /\ trace st1 =
         trace st ++ [if ok
                      then TelegramSend CHAT_ID (alert_text pair tf s (now_text E)) (Some "Markdown")
                      else Log ERROR "TG error: " (Some DeliveryError)]
    /\ send_alert E' pair' tf' s' st1 = st1.
Proof.
  intros ok st1.
  assert (rate_limited (with_tg_ok ok E) (dedup_key pair tf s) st = false) as Hpass'
    by exact Hpass.
  assert (sent_signals st1 = <[dedup_key pair tf s := now_stamp E]> (sent_signals st))
    as Hsent by (apply (send_alert_allowed (with_tg_ok ok E)); exact Hpass').
  split; [exact Hsent |]. split.
  - unfold st1, send_alert. rewrite Hpass'. unfold deliver. by destruct ok.
  - apply send_alert_suppressed. rewrite Hkey.
    apply (rate_limited_within E' _ st1 (now_stamp E)); [| exact Hwin].
    rewrite Hsent. apply lookup_insert_eq.
Qed.

Lemma C10_failed_delivery_consumes_slot_witness :
  let E := at_time 0 false in
  let E' := at_time (10 * MINUTE) true in
  let st1 := send_alert (with_tg_ok false E) "frxXAUUSD" 5 gold_long init in
  sent_signals st1 = <[dedup_key "frxXAUUSD" 5 gold_long := now_stamp E]> (sent_signals init)
  /\ trace st1 = trace init ++ [Log ERROR "TG error: " (Some DeliveryError)]
  /\ send_alert E' "frxXAUUSD" 5 gold_long st1 = st1.
Proof.
  apply (C10_failed_delivery_consumes_slot
           (at_time 0 false) (at_time (10 * MINUTE) true)
           "frxXAUUSD" "frxXAUUSD" 5 5 gold_long gold_long init).
  - vm_compute. reflexivity.
  - reflexivity.
  - vm_compute. split; [discriminate | reflexivity].
Defined.


(** ** The message handler *)

Lemma raises_Ok {A} (a : A) : ~ raises (Ok a).
Proof. by intros [e He]. Qed.

(** An event with a field that cannot be converted yields no candle. *)
Lemma normalize_field_fails (P : parsers) (payload : json) :
  field_fails P payload ->
  normalize P payload = Ok None \/ exists e, normalize P payload = Raise e.
Proof.
  intros Hf. unfold normalize.
  destruct (py_in "ohlc" payload) as [[|]|e]; simpl; [| by left | by right; exists e].
  destruct (ohlc_field payload "symbol") as [sym|e]; simpl; [| by right; exists e].
  unfold field_fails in Hf.
  destruct (ohlc_field payload "granularity") as [g|e]; simpl in *; [| by right; exists e].
  destruct (py_int P g) as [n|e]; simpl; [| by right; exists e].
  destruct (bool_decide (n / 60 ∈ TIMEFRAMES)%Z); [| by left].
  destruct (in_PAIRS sym) as [symbol|]; [| by left].
  destruct (ohlc_field payload "epoch" ≫= fromtimestamp) as [t|e]; simpl;
    [| by right; exists e].
  destruct (ohlc_field payload "open" ≫= py_float P) as [o|e]; simpl;
    [| by right; exists e].
  destruct (ohlc_field payload "high" ≫= py_float P) as [h|e]; simpl;
    [| by right; exists e].
  destruct (ohlc_field payload "low" ≫= py_float P) as [l|e]; simpl;
    [| by right; exists e].
  destruct (ohlc_field payload "close" ≫= py_float P) as [c|e]; simpl;
    [| by right; exists e].
  exfalso. destruct Hf as [H|[H|[H|[H|[H|H]]]]]; by apply raises_Ok in H.
Qed.

(** C5.  A feed event one of whose numeric fields is missing or is not a
    number yields no candle, so that neither the store nor the detector is
    reached: the handler returns normally, having at most written one line
    to the log; the series, the dedup records and the Telegram channel are
    as they were. *)
Theorem C5_malformed_event_dropped
    (P : parsers) (E : env) (payload : json) (st : bot)
    (Hbad : field_fails P payload) :
  (forall k, normalize P payload <> Ok (Some k))
  /\ (on_message P E (Ok payload) st = st
      \/ exists e, on_message P E (Ok payload) st = log_message_error e st)
  /\ data (on_message P E (Ok payload) st) = data st
  /\ sent_signals (on_message P E (Ok payload) st) = sent_signals st.
Proof.
  unfold on_message.
  change (Ok payload ≫= normalize P) with (normalize P payload).
  destruct (normalize_field_fails P payload Hbad) as [-> | [e ->]].
  - repeat split; try done. by left.
  - repeat split; try done. right. by exists e.
Qed.

Lemma C5_malformed_event_dropped_witness :
  let payload := ohlc_event "R_75" (JInt 60) (JStr "abc") in
  let E := at_time 0 true in
  field_fails Decimal.P payload
  /\ (forall k, normalize Decimal.P payload <> Ok (Some k))
  /\ (on_message Decimal.P E (Ok payload) streaming = streaming
      \/ exists e, on_message Decimal.P E (Ok payload) streaming = log_message_error e streaming)
  /\ data (on_message Decimal.P E (Ok payload) streaming) = data streaming
  /\ sent_signals (on_message Decimal.P E (Ok payload) streaming) = sent_signals streaming.
Proof.
  intros payload E.
  assert (field_fails Decimal.P payload) as Hbad.
  { do 5 right. exists ValueError. vm_compute. reflexivity. }
  split; [exact Hbad |].
  apply (C5_malformed_event_dropped Decimal.P E payload streaming Hbad).
Defined.

(** An event whose symbol is not subscribed, or whose granularity
    divided by 60 (rounding down) is not a subscribed timeframe, yields no
    candle. *)
Lemma normalize_unsubscribed (P : parsers) (payload : json) (sym g : json) (n : Z) :
  ohlc_field payload "symbol" = Ok sym ->
  ohlc_field payload "granularity" = Ok g ->
  py_int P g = Ok n ->
  in_PAIRS sym = None \/ (n / 60)%Z ∉ TIMEFRAMES ->
  normalize P payload = Ok None \/ exists e, normalize P payload = Raise e.
Proof.
  intros Hs Hg Hn Hout. unfold normalize.
  destruct (py_in "ohlc" payload) as [[|]|e]; simpl; [| by left | by right; exists e].
  rewrite Hs, Hg. simpl. rewrite Hn. simpl.
  destruct Hout as [-> | Hout].
  - left. by destruct (bool_decide (n / 60 ∈ TIMEFRAMES)%Z).
  - left. by rewrite bool_decide_eq_false_2.
Qed.

(** C6.  An ohlc event for the subscribed symbol R_75 that declares a
    granularity of 90 seconds, which is 60 times no subscribed timeframe,
    is not rejected: it is taken for the timeframe 90 // 60 = 1 and its
    candle is appended to the one-minute series of R_75. *)
Theorem C6_granularity_90_accepted :
  let payload := ohlc_event "R_75" (JInt 90) (JStr "1.25") in
  let c := {| time := 1700000000 * SECOND; open := 1.5; high := 2.5; low := 0.5; close := 1.25 |} in
  (forall tf, tf ∈ TIMEFRAMES -> (90 <> 60 * tf)%Z)
  /\ normalize Decimal.P payload = Ok (Some ("R_75", 1%Z, c))
  /\ series "R_75" 1 init = Ok []
  /\ series "R_75" 1 (on_message Decimal.P (at_time 0 true) (Ok payload) init) = Ok [c].
Proof.
  intros payload c. split.
  - intros tf Htf. unfold TIMEFRAMES in Htf.
    repeat (apply elem_of_cons in Htf as [-> | Htf]; [lia |]).
    by apply elem_of_nil in Htf.
  - repeat split; vm_compute; reflexivity.
Qed.

(** ** Connection handlers *)

Lemma emit_data (e : effect) (st : bot) : data (emit e st) = data st.
Proof. reflexivity. Qed.

Lemma foldl_emit_data (rs : list request) (st : bot) :
  data (foldl (fun st r => emit (WsSend r) st) st rs) = data st.
Proof. revert st. induction rs as [|r rs IH]; intros st; simpl; [done | by rewrite IH]. Qed.

Lemma on_open_data (E : env) (st : bot) : data (on_open E st).1 = data st.
Proof.
  unfold on_open. cbv zeta.
  change (connected_sent (emit _ (emit _ st))) with (connected_sent st).
  destruct (connected_sent st); [| destruct (tg_ok E)]; cbn [fst];
    rewrite ?foldl_emit_data; reflexivity.
Qed.

Lemma on_error_data (error : string) (st : bot) : data (on_error error st) = data st.
Proof. reflexivity. Qed.

Lemma on_close_data (close_status : Z) (close_msg : string) (st : bot) :
  data (on_close close_status close_msg st) = data st.
Proof. reflexivity. Qed.

Lemma dispatch_data (P : parsers) (st : bot) (ev : ws_event) :
  is_message ev = false -> data (dispatch P st ev) = data st.
Proof.
  destruct ev as [E|E decoded|error|cs cm]; simpl; intros H; try done.
  pose proof (on_open_data E st) as Ho.
  destruct (on_open E st) as [st1 [e|]]; simpl in *; by rewrite <- Ho.
Qed.

Lemma run_forever_data (P : parsers) (evs : list ws_event) (st : bot) :
  Forall (fun ev => is_message ev = false) evs ->
  data (foldl (dispatch P) st evs) = data st.
Proof.
  revert st. induction evs as [|ev evs IH]; intros st Hq; simpl; [done |].
  apply Forall_cons in Hq as [Hev Hq].
  rewrite IH by done. by apply dispatch_data.
Qed.

Lemma connect_once_data (P : parsers) (st : bot) (s : session) :
  Forall (fun ev => is_message ev = false) (events s) ->
  data (connect_once P st s) = data st.
Proof.
  intros Hq. unfold connect_once.
  destruct (crash s); simpl; by rewrite run_forever_data.
Qed.

(** C8.  The handlers of the connection life cycle leave every stored
    series as it is: opening, a transport error, a close, and any run of
    the connection loop (errors, closes, crashes of [run_forever] and new
    connections) during which no feed event is delivered. *)
Theorem C8_series_survive_reconnect
    (P : parsers) (sessions : list session) (st : bot)
    (Hquiet : quiet sessions) :
  (forall E, data (on_open E st).1 = data st)
  /\ (forall error, data (on_error error st) = data st)
  /\ (forall close_status close_msg, data (on_close close_status close_msg st) = data st)
  /\ data (ws_thread P sessions st) = data st.
Proof.
  split; [intros E; apply on_open_data |].
  split; [done |]. split; [done |].
  unfold ws_thread. revert st.
  induction Hquiet as [|s sessions Hs _ IH]; intros st; simpl; [done |].
  rewrite IH. destruct (active st); [by apply connect_once_data | done].
Qed.

Lemma C8_series_survive_reconnect_witness :
  quiet reconnect_gap
  /\ series "R_75" 1 streaming
       = Ok [{| time := 1700000000 * SECOND; open := 1.5; high := 2.5; low := 0.5; close := 1.25 |}]
  /\ data (ws_thread Decimal.P reconnect_gap streaming) = data streaming.
Proof.
  assert (quiet reconnect_gap) as Hq by (repeat constructor).
  split; [exact Hq |]. split; [vm_compute; reflexivity |].
  apply (C8_series_survive_reconnect Decimal.P reconnect_gap streaming Hq).
Defined.

(** ** Windows and their tails *)

Lemma tail_tail {A} (n m : nat) (l : list A) :
  n <= m -> pd.tail n (pd.tail m l) = pd.tail n l.
Proof.
  intros Hnm. unfold pd.tail. rewrite length_drop, drop_drop. f_equal. lia.
Qed.

Lemma tail_subseteq {A} (n m : nat) (l : list A) (x : A) :
  n <= m -> x ∈ pd.tail n l -> x ∈ pd.tail m l.
Proof.
  intros Hnm Hx. rewrite <- (tail_tail n m l Hnm) in Hx.
  unfold pd.tail at 1 in Hx. by apply subseteq_drop in Hx.
Qed.

Lemma last_tail {A} (n : nat) (l : list A) : 0 < n -> last (pd.tail n l) = last l.
Proof.
  intros Hn. unfold pd.tail.
  destruct (decide (length l <= n)) as [Hle|Hgt].
  - by replace (length l - n) with 0 by lia.
  - rewrite <- (take_drop (length l - n) l) at 3.
    rewrite last_app.
    destruct (last (drop (length l - n) l)) eqn:Hl; [done |].
    apply last_None in Hl. apply (f_equal length) in Hl.
    rewrite length_drop in Hl. simpl in Hl. lia.
Qed.

Lemma last_elem_of_tail {A} (n : nat) (l : list A) (x : A) :
  0 < n -> last l = Some x -> x ∈ pd.tail n l.
Proof.
  intros Hn Hl. apply last_Some_elem_of. by rewrite last_tail.
Qed.

Lemma is_max_ge (m : Q) (l : list Q) (x : Q) : is_max m l -> x ∈ l -> (x <= m)%Q.
Proof. intros [_ H] Hx. rewrite Forall_forall in H. by apply H. Qed.

Lemma is_min_le (m : Q) (l : list Q) (x : Q) : is_min m l -> x ∈ l -> (m <= x)%Q.
Proof. intros [_ H] Hx. rewrite Forall_forall in H. by apply H. Qed.

Lemma iloc_last_of_last (col : candle -> Q) (df : dataframe) (c : candle) :
  last df = Some c -> pd.iloc_last col df = Ok (col c).
Proof.
  intros Hl. unfold pd.iloc_last. destruct df as [|c0 cs]; [done |].
  by rewrite fmap_last, Hl.
Qed.

Lemma tail_max_bounds_last (col : candle -> Q) (n : nat) (df : dataframe) (c : candle) (m : Q) :
  0 < n -> last df = Some c -> pd.tail_max col n df = Ok m -> (col c <= m)%Q.
Proof.
  intros Hn Hl Hm. apply tail_max_Ok in Hm.
  apply (is_max_ge _ _ _ Hm). apply list_elem_of_fmap_2.
  by apply last_elem_of_tail.
Qed.

Lemma tail_min_bounds_last (col : candle -> Q) (n : nat) (df : dataframe) (c : candle) (m : Q) :
  0 < n -> last df = Some c -> pd.tail_min col n df = Ok m -> (m <= col c)%Q.
Proof.
  intros Hn Hl Hm. apply tail_min_Ok in Hm.
  apply (is_min_le _ _ _ Hm). apply list_elem_of_fmap_2.
  by apply last_elem_of_tail.
Qed.

(** X1.  The latest candle is one of the last ten, so the breakout levels
    enclose its own range: when its close lies within that range, no
    breakout is reported, whatever the length of the window. *)
Theorem X1_no_breakout_when_close_in_range (df : dataframe) (c : candle)
    (Hlast : last df = Some c) (Hc : closes_in_range c) :
  detect_breakout df = Ok None.
Proof.
  unfold detect_breakout. case_bool_decide as Hlen; [done |].
  assert (df <> []) as Hdf by (by intros ->).
  destruct (tail_max_nonempty high 10 df) as [hi Hhi]; [lia | done |].
  destruct (tail_min_nonempty low 10 df) as [lo Hlo]; [lia | done |].
  rewrite Hhi, Hlo, (iloc_last_of_last close df c Hlast). simpl.
  destruct Hc as [Hlc Hch].
  apply (tail_max_bounds_last high 10 df c) in Hhi; [| lia | done].
  apply (tail_min_bounds_last low 10 df c) in Hlo; [| lia | done].
  rewrite (proj2 (Qgtb_le (close c) hi)) by (eapply Qle_trans; eauto).
  by rewrite (proj2 (Qltb_ge (close c) lo)) by (eapply Qle_trans; eauto).
Qed.

Lemma X1_no_breakout_when_close_in_range_witness :
  last (rising_window ++ [bar 131 100 120]) = Some (bar 131 100 120)
  /\ closes_in_range (bar 131 100 120)
  /\ detect_breakout (rising_window ++ [bar 131 100 120]) = Ok None.
Proof.
  assert (last (rising_window ++ [bar 131 100 120]) = Some (bar 131 100 120)) as Hl
    by (vm_compute; reflexivity).
  assert (closes_in_range (bar 131 100 120)) as Hc
    by (split; vm_compute; discriminate).
  split; [exact Hl |]. split; [exact Hc |].
  exact (X1_no_breakout_when_close_in_range _ _ Hl Hc).
Defined.

Lemma factors_enclose_last (df : dataframe) (f : factors) (c : candle) :
  price_action_factors df = Ok f -> last df = Some c ->
  last_close f = close c
  /\ (support f <= low c)%Q
  /\ (high c <= resistance f)%Q.
Proof.
  intros Hf Hlast.
  apply price_action_factors_Ok in Hf as (Hsup & Hres & _ & _ & _ & Hclose).
  rewrite (iloc_last_of_last close df c Hlast) in Hclose. injection Hclose as Hclose.
  apply (tail_min_bounds_last low 20 df c) in Hsup; [| lia | done].
  apply (tail_max_bounds_last high 20 df c) in Hres; [| lia | done].
  done.
Qed.

Lemma emission_inside_band (f : factors) :
  (support f <= last_close f)%Q -> (last_close f <= resistance f)%Q ->
  emission f = None.
Proof.
  intros Hs Hr. destruct (emission f) as [s|] eqn:He; [| done].
  apply emission_Some in He as [_ [[Hlt _] | (_ & Hlt & _)]].
  - by apply Qlt_not_le in Hlt.
  - by apply Qlt_not_le in Hlt.
Qed.

(** X2.  The latest candle is one of the last twenty, so the resistance is
    at least its high and the support at most its low: on a window whose
    latest candle closes within its own range the detector never returns a
    signal. *)
Theorem X2_no_signal_when_close_in_range (df : dataframe) (c : candle)
    (Hlast : last df = Some c) (Hc : closes_in_range c) :
  forall s, combine_price_action_factors df <> Ok (Some s).
Proof.
  intros s H. unfold combine_price_action_factors in H.
  inv_bind H as f Hf. injection H as H.
  destruct (factors_enclose_last df f c Hf Hlast) as (Hclose & Hsup & Hres).
  destruct Hc as [Hlc Hch].
  rewrite emission_inside_band in H; [done | |]; rewrite Hclose.
  - eapply Qle_trans; eauto.
  - eapply Qle_trans; eauto.
Qed.

Lemma X2_no_signal_when_close_in_range_witness :
  last (rising_window ++ [bar 131 100 120]) = Some (bar 131 100 120)
  /\ closes_in_range (bar 131 100 120)
  /\ forall s, combine_price_action_factors (rising_window ++ [bar 131 100 120])
                 <> Ok (Some s).
Proof.
  assert (last (rising_window ++ [bar 131 100 120]) = Some (bar 131 100 120)) as Hl
    by (vm_compute; reflexivity).
  assert (closes_in_range (bar 131 100 120)) as Hc
    by (split; vm_compute; discriminate).
  split; [exact Hl |]. split; [exact Hc |].
  exact (X2_no_signal_when_close_in_range _ _ Hl Hc).
Defined.

(** ** The detector and the end of the window *)

Lemma tail_min_tail (col : candle -> Q) (n m : nat) (df : dataframe) :
  n <= m -> pd.tail_min col n (pd.tail m df) = pd.tail_min col n df.
Proof.
  intros H. unfold pd.tail_min. by rewrite <- !tail_fmap, tail_tail.
Qed.

Lemma tail_max_tail (col : candle -> Q) (n m : nat) (df : dataframe) :
  n <= m -> pd.tail_max col n (pd.tail m df) = pd.tail_max col n df.
Proof.
  intros H. unfold pd.tail_max. by rewrite <- !tail_fmap, tail_tail.
Qed.

Lemma tail_nonempty {A} (m : nat) (l : list A) : 0 < m -> l <> [] -> pd.tail m l <> [].
Proof. intros Hm Hl Ht. by apply tail_nil_inv in Ht. Qed.

Lemma tail_values_tail (col : candle -> Q) (n m : nat) (df : dataframe) :
  n <= m -> 0 < m -> pd.tail_values col n (pd.tail m df) = pd.tail_values col n df.
Proof.
  intros Hnm Hm. destruct (decide (df = [])) as [-> | Hdf]; [done |].
  rewrite !tail_values_nonempty by (done || by apply tail_nonempty).
  by rewrite <- tail_fmap, tail_tail.
Qed.

Lemma iloc_last_tail (col : candle -> Q) (m : nat) (df : dataframe) :
  0 < m -> pd.iloc_last col (pd.tail m df) = pd.iloc_last col df.
Proof.
  intros Hm. destruct (decide (df = [])) as [-> | Hdf]; [done |].
  unfold pd.iloc_last.
  pose proof (tail_nonempty m df Hm Hdf) as Ht.
  destruct (pd.tail m df) as [|c cs] eqn:Heq; [done |]. rewrite <- Heq.
  destruct df as [|c' cs']; [done |].
  by rewrite <- tail_fmap, last_tail.
Qed.

(** X3.  From twenty candles on, the detector reads the last twenty
    candles only: it returns on the window what it returns on its last
    twenty candles. *)
Theorem X3_detector_reads_last_twenty (df : dataframe) (Hlen : 20 <= length df) :
  price_action_factors df = price_action_factors (pd.tail 20 df)
  /\ combine_price_action_factors df = combine_price_action_factors (pd.tail 20 df).
Proof.
  assert (price_action_factors df = price_action_factors (pd.tail 20 df)) as H.
  { unfold price_action_factors, calculate_support_resistance, identify_zones,
      detect_trendline, detect_breakout, detect_head_shoulders.
    rewrite !tail_min_tail, !tail_max_tail, !tail_values_tail, !iloc_last_tail by lia.
    rewrite tail_length.
    rewrite (bool_decide_eq_false_2 (length df < 20)) by lia.
    rewrite (bool_decide_eq_false_2 (20 `min` length df < 20)) by lia.
    rewrite (bool_decide_eq_false_2 (length df < 7)) by lia.
    rewrite (bool_decide_eq_false_2 (20 `min` length df < 7)) by lia.
    reflexivity. }
  split; [exact H |]. unfold combine_price_action_factors. by rewrite H.
Qed.

Lemma X3_detector_reads_last_twenty_witness :
  20 <= length (bar 1 1 1 :: rising_window)
  /\ pd.tail 20 (bar 1 1 1 :: rising_window) = rising_window
  /\ price_action_factors (bar 1 1 1 :: rising_window)
     = price_action_factors (pd.tail 20 (bar 1 1 1 :: rising_window))
  /\ combine_price_action_factors (bar 1 1 1 :: rising_window)
     = combine_price_action_factors (pd.tail 20 (bar 1 1 1 :: rising_window)).
Proof.
  assert (20 <= length (bar 1 1 1 :: rising_window)) as H by (vm_compute; lia).
  split; [exact H |]. split; [vm_compute; reflexivity |].
  exact (X3_detector_reads_last_twenty _ H).
Defined.

Lemma price_action_factors_zones (df : dataframe) (f : factors) :
  price_action_factors df = Ok f ->
  pd.tail_min low 10 df = Ok (demand f) /\ pd.tail_max high 10 df = Ok (supply f).
Proof.
  unfold price_action_factors, identify_zones. intros H.
  inv_bind H as [sup res] Hsr.
  inv_bind H as [dem supl] Hz.
  inv_bind Hz as lo Hlo. inv_bind Hz as hi Hhi. injection Hz as <- <-.
  inv_bind H as [sh sl] Ht.
  inv_bind H as b Hb. inv_bind H as h Hh. inv_bind H as c Hc.
  injection H as <-. simpl. auto.
Qed.

Lemma zones_within_band (df : dataframe) (f : factors) :
  price_action_factors df = Ok f ->
  (support f <= demand f)%Q /\ (supply f <= resistance f)%Q.
Proof.
  intros Hf. destruct (price_action_factors_zones df f Hf) as [Hdem Hsupl].
  apply price_action_factors_Ok in Hf as (Hsup & Hres & _).
  apply tail_min_Ok in Hdem, Hsup. apply tail_max_Ok in Hsupl, Hres. split.
  - apply (is_min_le _ _ _ Hsup). destruct Hdem as [Hin _].
    apply list_elem_of_fmap in Hin as (c & -> & Hc).
    apply list_elem_of_fmap_2. apply (tail_subseteq 10 20); [lia | done].
  - apply (is_max_ge _ _ _ Hres). destruct Hsupl as [Hin _].
    apply list_elem_of_fmap in Hin as (c & -> & Hc).
    apply list_elem_of_fmap_2. apply (tail_subseteq 10 20); [lia | done].
Qed.

(** X4.  The demand and supply levels are the least low and the greatest
    high of the last ten candles, and they lie inside the band of support
    and resistance: support <= demand and supply <= resistance. *)
Theorem X4_zones_inside_band (df : dataframe) (f : factors)
    (Hf : price_action_factors df = Ok f) :
  is_min (demand f) (low <$> pd.tail 10 df)
  /\ is_max (supply f) (high <$> pd.tail 10 df)
  /\ (support f <= demand f)%Q
  /\ (supply f <= resistance f)%Q.
Proof.
  destruct (zones_within_band df f Hf) as [Hsd Hsr].
  destruct (price_action_factors_zones df f Hf) as [Hdem Hsupl].
  apply tail_min_Ok in Hdem. apply tail_max_Ok in Hsupl. done.
Qed.

Lemma X4_zones_inside_band_witness :
  exists f, price_action_factors inverted_window = Ok f
    /\ is_min (demand f) (low <$> pd.tail 10 inverted_window)
    /\ is_max (supply f) (high <$> pd.tail 10 inverted_window)
    /\ (support f <= demand f)%Q
    /\ (supply f <= resistance f)%Q.
Proof.
  destruct (price_action_factors inverted_window) as [f|e] eqn:Hf.
  - exists f. split; [reflexivity |]. exact (X4_zones_inside_band _ f Hf).
  - vm_compute in Hf. discriminate.
Defined.

(** X5.  On a window of at least twenty candles every signal comes with a
    reported breakout, hence with its two points of confidence: a close
    above the resistance is above the ten-candle high, and a close below
    the support is below the ten-candle low.  A LONG signal comes with
    "Breakout Up". *)
Theorem X5_signal_implies_breakout (df : dataframe) (s : signal)
    (Hlen : 20 <= length df)
    (Hs : combine_price_action_factors df = Ok (Some s)) :
  exists f, price_action_factors df = Ok f
    /\ (breakout f = Some "Breakout Up" \/ breakout f = Some "Breakout Down")
    /\ (type s = LONG -> breakout f = Some "Breakout Up").
Proof.
  unfold combine_price_action_factors in Hs.
  inv_bind Hs as f Hf. injection Hs as Hs. exists f. split; [done |].
  destruct (price_action_factors_zones df f Hf) as [Hdem Hsupl].
  destruct (zones_within_band df f Hf) as [Hsd Hsr].
  apply price_action_factors_Ok in Hf as (_ & _ & _ & Hb & _ & Hc).
  unfold detect_breakout in Hb.
  rewrite bool_decide_eq_false_2 in Hb by lia.
  rewrite Hsupl, Hdem, Hc in Hb. simpl in Hb.
  apply emission_Some in Hs as [_ [[Hlt ->] | (_ & Hlt & ->)]]; simpl.
  - assert (Qgtb (last_close f) (supply f) = true) as Hup
      by (apply Qgtb_gt; eapply Qle_lt_trans; eauto).
    rewrite Hup in Hb. injection Hb as <-. auto.
  - assert (Qltb (last_close f) (demand f) = true) as Hdown
      by (apply Qltb_lt; eapply Qlt_le_trans; eauto).
    rewrite Hdown in Hb.
    destruct (Qgtb (last_close f) (supply f)); injection Hb as <-;
      (split; [auto | done]).
Qed.

Lemma X5_signal_implies_breakout_witness :
  20 <= length rising_window
  /\ combine_price_action_factors rising_window = Ok (Some gold_long)
  /\ exists f, price_action_factors rising_window = Ok f
    /\ (breakout f = Some "Breakout Up" \/ breakout f = Some "Breakout Down")
    /\ (type gold_long = LONG -> breakout f = Some "Breakout Up").
Proof.
  assert (20 <= length rising_window) as Hlen by (vm_compute; lia).
  assert (combine_price_action_factors rising_window = Ok (Some gold_long)) as Hs
    by (vm_compute; reflexivity).
  split; [exact Hlen |]. split; [exact Hs |].
  exact (X5_signal_implies_breakout _ _ Hlen Hs).
Defined.

(** X6.  From ten candles on the detector runs to completion: it returns
    the signal of the emission rule or none, never an exception; the
    confidence lies between 0 and 8, and below twenty candles, where no
    breakout is looked for, it is 6 at most. *)
Theorem X6_detector_runs_from_ten (df : dataframe) (Hlen : 10 <= length df) :
  exists f, price_action_factors df = Ok f
    /\ combine_price_action_factors df = Ok (emission f)
    /\ (0 <= confidence f <= 8)%Z
    /\ (length df < 20 -> breakout f = None /\ (confidence f <= 6)%Z).
Proof.
  destruct (price_action_factors_ten df Hlen) as [f Hf].
  exists f. split; [done |]. split.
  { unfold combine_price_action_factors. by rewrite Hf. }
  split; [apply confidence_bounds |].
  intros Hlt. apply price_action_factors_Ok in Hf as (_ & _ & _ & Hb & _).
  rewrite detect_breakout_short in Hb by done. injection Hb as Hb.
  split; [done |]. unfold confidence. rewrite <- Hb. simpl.
  pose proof (points_bounds (Qgtb (last_close f) (support f)) 1).
  pose proof (points_bounds (Qltb (last_close f) (resistance f)) 1).
  pose proof (points_bounds (truthy (hs_pattern f)) 2).
  pose proof (points_bounds (Qgtb (slope_high f) 0) 1).
  pose proof (points_bounds (Qltb (slope_low f) 0) 1).
  lia.
Qed.

Lemma X6_detector_runs_from_ten_witness :
  10 <= length (pd.tail 12 rising_window)
  /\ exists f, price_action_factors (pd.tail 12 rising_window) = Ok f
    /\ combine_price_action_factors (pd.tail 12 rising_window) = Ok (emission f)
    /\ (0 <= confidence f <= 8)%Z
    /\ (length (pd.tail 12 rising_window) < 20 -> breakout f = None /\ (confidence f <= 6)%Z).
Proof.
  assert (10 <= length (pd.tail 12 rising_window)) as H by (vm_compute; lia).
  split; [exact H |]. exact (X6_detector_runs_from_ten _ H).
Defined.

(** ** The alert gate and the time of day *)

Lemma timedelta_seconds_mod_day (d : Z) :
  (timedelta_seconds d < 1500 <-> d mod DAY < 25 * MINUTE)%Z.
Proof.
  unfold timedelta_seconds.
  replace DAY with (SECOND * 86400)%Z by reflexivity.
  rewrite Z.rem_mul_r by (unfold SECOND; lia).
  pose proof (Z.mod_pos_bound d SECOND) as Hr.
  unfold MINUTE, SECOND in *. lia.
Qed.

Lemma rate_limited_stamped (E : env) (key : string) (st : bot) (last : Z) :
  sent_signals st !! key = Some last ->
  rate_limited E key st = true <-> (timedelta_seconds (now_check E - last) < 1500)%Z.
Proof.
  intros Hk. rewrite rate_limited_true. split.
  - intros (last' & Hk' & H). rewrite Hk in Hk'. by injection Hk' as <-.
  - intros H. by exists last.
Qed.

(** X7.  The gate compares the time of day, not the time elapsed: a key
    stamped at [last] is rate limited at [now] exactly when [now - last],
    reduced modulo one day, is below 25 minutes. *)
Theorem X7_gate_modulo_one_day (E : env) (key : string) (st : bot) (last : Z)
    (Hk : sent_signals st !! key = Some last) :
  rate_limited E key st = true <-> ((now_check E - last) mod DAY < 25 * MINUTE)%Z.
Proof.
  rewrite (rate_limited_stamped E key st last Hk).
  apply timedelta_seconds_mod_day.
Qed.

Lemma X7_gate_modulo_one_day_witness :
  sent_signals after_first_alert !! "frxXAUUSD_5_LONG_132.00" = Some 0%Z
  /\ (rate_limited (at_time (3 * DAY + 24 * MINUTE) true) "frxXAUUSD_5_LONG_132.00"
        after_first_alert = true
      <-> ((3 * DAY + 24 * MINUTE - 0) mod DAY < 25 * MINUTE)%Z).
Proof.
  assert (sent_signals after_first_alert !! "frxXAUUSD_5_LONG_132.00" = Some 0%Z) as Hk
    by (vm_compute; reflexivity).
  split; [exact Hk |].
  exact (X7_gate_modulo_one_day (at_time (3 * DAY + 24 * MINUTE) true) _ _ _ Hk).
Defined.

(** X8.  What one call of [send_alert] does.  It never touches the series,
    nor the record of any other key.  A key that was never stamped, or
    whose stamp is 25 minutes old or more (modulo one day), is stamped with
    the current time and exactly one thing is added to the trace: the
    Telegram message, or the logged error when the delivery fails.
    Otherwise the bot is left exactly as it was. *)
Theorem X8_send_alert_outcomes (E : env) (pair : string) (tf : Z) (s : signal) (st : bot) :
  let key := dedup_key pair tf s in
  let st1 := send_alert E pair tf s st in
  let stamped :=
    sent_signals st1 !! key = Some (now_stamp E)
    /\ trace st1 =
         trace st ++ [if tg_ok E
                      then TelegramSend CHAT_ID (alert_text pair tf s (now_text E)) (Some "Markdown")
                      else Log ERROR "TG error: " (Some DeliveryError)] in
  data st1 = data st
  /\ connected_sent st1 = connected_sent st
  /\ (forall key', key' <> key -> sent_signals st1 !! key' = sent_signals st !! key')
  /\ match sent_signals st !! key with
     | Some last =>
         if decide ((now_check E - last) mod DAY < 25 * MINUTE)%Z then st1 = st else stamped
     | None => stamped
     end.
Proof.
  intros key st1 stamped.
  assert (rate_limited E key st = false -> 
          data st1 = data st /\ connected_sent st1 = connected_sent st
          /\ (forall key', key' <> key -> sent_signals st1 !! key' = sent_signals st !! key')
          /\ stamped) as Hpass.
  { intros Hr. unfold stamped, st1, send_alert. fold key. rewrite Hr.
    unfold deliver. destruct (tg_ok E); simpl;
      (repeat split; [intros key' Hne; by apply lookup_insert_ne | apply lookup_insert_eq]). }
  destruct (sent_signals st !! key) as [last|] eqn:Hk.
  - case_decide as Hd.
    + assert (rate_limited E key st = true) as Hr
        by (by apply (rate_limited_stamped E key st last), timedelta_seconds_mod_day).
      unfold st1, send_alert. fold key. by rewrite Hr.
    + assert (rate_limited E key st = false) as Hr.
      { apply not_true_iff_false. intros Hr. apply Hd.
        by apply timedelta_seconds_mod_day, (rate_limited_stamped E key st last). }
      destruct (Hpass Hr) as (? & ? & ? & ?). done.
  - assert (rate_limited E key st = false) as Hr
      by (unfold rate_limited; by rewrite Hk).
    destruct (Hpass Hr) as (? & ? & ? & ?). done.
Qed.

Lemma X8_send_alert_outcomes_witness :
  "frxXAUUSD_5_LONG_132.00" <> dedup_key "R_75" 1 gold_long
  /\ sent_signals (send_alert (at_time (5 * MINUTE) false) "R_75" 1 gold_long after_first_alert)
       !! "frxXAUUSD_5_LONG_132.00"
     = sent_signals after_first_alert !! "frxXAUUSD_5_LONG_132.00".
Proof.
  assert ("frxXAUUSD_5_LONG_132.00" <> dedup_key "R_75" 1 gold_long) as Hne
    by (vm_compute; discriminate).
  split; [exact Hne |].
  exact (proj1 (proj2 (proj2
    (X8_send_alert_outcomes (at_time (5 * MINUTE) false) "R_75" 1 gold_long
       after_first_alert))) _ Hne).
Defined.

(** ** The normalizer *)

Lemma in_PAIRS_Some (v : json) (symbol : string) :
  in_PAIRS v = Some symbol <-> v = JStr symbol /\ symbol ∈ PAIRS.
Proof.
  unfold in_PAIRS. destruct v as [| | | |s| |]; try (split; [done | by intros [? _]]).
  case_bool_decide as Hs; split.
  - by intros [= <-].
  - by intros [[= <-] _].
  - done.
  - intros [[= <-] H]. done.
Qed.

(** X9.  A candle comes out of the normalizer only for a subscribed
    symbol and for one of the timeframes 1, 5 and 10, this timeframe being
    the declared granularity divided by 60 and rounded down; its fields are
    the conversions of the fields of the event. *)
Theorem X9_normalize_sound (P : parsers) (payload : json)
    (symbol : string) (tf : Z) (c : candle)
    (H : normalize P payload = Ok (Some (symbol, tf, c))) :
  subscribed symbol tf
  /\ ohlc_field payload "symbol" = Ok (JStr symbol)
  /\ (exists g, ohlc_field payload "granularity" ≫= py_int P = Ok g
        /\ (60 * tf <= g < 60 * tf + 60)%Z)
  /\ ohlc_field payload "epoch" ≫= fromtimestamp = Ok (time c)
  /\ ohlc_field payload "open" ≫= py_float P = Ok (open c)
  /\ ohlc_field payload "high" ≫= py_float P = Ok (high c)
  /\ ohlc_field payload "low" ≫= py_float P = Ok (low c)
  /\ ohlc_field payload "close" ≫= py_float P = Ok (close c).
Proof.
  unfold normalize in H.
  inv_bind H as has Hhas. destruct has; simpl in H; [| done].
  inv_bind H as sym Hsym. inv_bind H as gran Hgran. inv_bind H as g Hg.
  case_bool_decide as Htf; [| done].
  destruct (in_PAIRS sym) as [symbol'|] eqn:Hp; [| done].
  inv_bind H as t Ht. inv_bind H as o Ho. inv_bind H as h Hh.
  inv_bind H as l Hl. inv_bind H as cl Hc.
  injection H as <- <- <-. simpl.
  apply in_PAIRS_Some in Hp as [-> Hin].
  split; [done |]. split; [done |]. split.
  - exists g. rewrite Hgran. simpl. split; [done |].
    pose proof (Z.div_mod g 60). pose proof (Z.mod_pos_bound g 60). lia.
  - done.
Qed.

Lemma X9_normalize_sound_witness :
  normalize Decimal.P (ohlc_event "R_75" (JInt 359) (JStr "1.25"))
    = Ok (Some ("R_75", 5%Z,
                {| time := 1700000000 * SECOND; open := 1.5; high := 2.5;
                   low := 0.5; close := 1.25 |}))
  /\ subscribed "R_75" 5.
Proof.
  assert (normalize Decimal.P (ohlc_event "R_75" (JInt 359) (JStr "1.25"))
    = Ok (Some ("R_75", 5%Z,
                {| time := 1700000000 * SECOND; open := 1.5; high := 2.5;
                   low := 0.5; close := 1.25 |}))) as H by (vm_compute; reflexivity).
  split; [exact H |].
  exact (proj1 (X9_normalize_sound _ _ _ _ _ H)).
Defined.

(** ** The message handler, case by case *)

Lemma store_candle_inv (pair : string) (tf : Z) (c : candle) (st st1 : bot) :
  store_candle pair tf c st = Ok st1 ->
  exists df, series pair tf st = Ok df
    /\ series pair tf st1 = Ok (append df c)
    /\ (forall p t, (p, t) <> (pair, tf) -> series p t st1 = series p t st)
    /\ sent_signals st1 = sent_signals st
    /\ connected_sent st1 = connected_sent st
    /\ trace st1 = trace st.
Proof.
  unfold store_candle. intros H. inv_bind H as df Hdf. exists df.
  split; [done |]. unfold series in *.
  destruct (data st !! pair) as [by_tf|] eqn:Hp; [| done].
  injection H as <-. simpl. rewrite lookup_insert_eq, lookup_insert_eq.
  split; [done |]. split; [| done].
  intros p t Hne. destruct (decide (p = pair)) as [-> | Hpne].
  - rewrite lookup_insert_eq, Hp. rewrite lookup_insert_ne; [done |].
    intros ->. done.
  - by rewrite lookup_insert_ne.
Qed.

Lemma on_message_cases (P : parsers) (E : env) (decoded : result json) (st : bot) :
  (decoded ≫= normalize P = Ok None /\ on_message P E decoded st = st)
  \/ (exists e, decoded ≫= normalize P = Raise e
        /\ on_message P E decoded st = log_message_error e st)
  \/ (exists symbol tf c e, decoded ≫= normalize P = Ok (Some (symbol, tf, c))
        /\ store_candle symbol tf c st = Raise e
        /\ on_message P E decoded st = log_message_error e st)
  \/ (exists symbol tf c df st1, decoded ≫= normalize P = Ok (Some (symbol, tf, c))
        /\ series symbol tf st = Ok df
        /\ store_candle symbol tf c st = Ok st1
        /\ on_message P E decoded st =
             match combine_price_action_factors (append df c) with
             | Raise e => log_message_error e st1
             | Ok None => st1
             | Ok (Some s) => send_alert E symbol tf s st1
             end).
Proof.
  unfold on_message.
  destruct (decoded ≫= normalize P) as [[[[symbol tf] c]|]|e]; [| by left | right; left; by exists e].
  destruct (store_candle symbol tf c st) as [st1|e] eqn:Hst.
  - right; right; right.
    destruct (store_candle_inv _ _ _ _ _ Hst) as (df & Hdf & Hdf1 & _).
    exists symbol, tf, c, df, st1. rewrite Hdf1. simpl. done.
  - right; right; left. by exists symbol, tf, c, e.
Qed.

Lemma send_alert_frame (E : env) (pair : string) (tf : Z) (s : signal) (st : bot) :
  data (send_alert E pair tf s st) = data st
  /\ connected_sent (send_alert E pair tf s st) = connected_sent st.
Proof.
  unfold send_alert. destruct (rate_limited _ _ _); [done |].
  unfold deliver. by destruct (tg_ok E).
Qed.

Lemma series_data (pair : string) (tf : Z) (st st' : bot) :
  data st' = data st -> series pair tf st' = series pair tf st.
Proof. unfold series. by intros ->. Qed.

(** X10.  One message changes one series at most, and only by an append:
    either every series is as it was, or the event was accepted for a key
    whose series is now [append] of its old value and of the candle of the
    event, every other series being as it was. *)
Theorem X10_on_message_one_series
    (P : parsers) (E : env) (decoded : result json) (st : bot) :
  data (on_message P E decoded st) = data st
  \/ exists symbol tf c df,
       decoded ≫= normalize P = Ok (Some (symbol, tf, c))
       /\ series symbol tf st = Ok df
       /\ series symbol tf (on_message P E decoded st) = Ok (append df c)
       /\ forall p t, (p, t) <> (symbol, tf) ->
            series p t (on_message P E decoded st) = series p t st.
Proof.
  destruct (on_message_cases P E decoded st)
    as [[_ ->] | [(e & _ & ->) | [(symbol & tf & c & e & _ & _ & ->) |
        (symbol & tf & c & df & st1 & Hn & Hdf & Hst & ->)]]]; try by left.
  right. exists symbol, tf, c, df. split; [done |]. split; [done |].
  destruct (store_candle_inv _ _ _ _ _ Hst) as (df' & Hdf' & Hdf1 & Hother & _).
  rewrite Hdf in Hdf'. injection Hdf' as <-.
  assert (forall st2, data st2 = data st1 ->
            series symbol tf st2 = Ok (append df c)
            /\ forall p t, (p, t) <> (symbol, tf) -> series p t st2 = series p t st) as Hd.
  { intros st2 Hd. split.
    - by rewrite (series_data _ _ _ _ Hd).
    - intros p t Hne. rewrite (series_data _ _ _ _ Hd). by apply Hother. }
  destruct (combine_price_action_factors (append df c)) as [[s|]|e]; apply Hd.
  - apply send_alert_frame.
  - done.
  - done.
Qed.

Lemma X10_on_message_one_series_witness :
  series "R_75" 5
    (on_message Decimal.P (at_time 0 true) (Ok (ohlc_event "R_75" (JInt 60) (JStr "1.25"))) init)
  = series "R_75" 5 init.
Proof.
  destruct (X10_on_message_one_series Decimal.P (at_time 0 true)
              (Ok (ohlc_event "R_75" (JInt 60) (JStr "1.25"))) init)
    as [Hd | (symbol & tf & c & df & Hn & _ & _ & Hother)].
  - by rewrite (series_data _ _ _ _ Hd).
  - vm_compute in Hn. injection Hn as <- <- <-. apply Hother. discriminate.
Defined.

(** ** The store along a run of the bot *)

Lemma subscribed_cases (pair : string) (tf : Z) :
  subscribed pair tf <->
  (pair = "frxXAUUSD" \/ pair = "R_75" \/ pair = "R_75S")
  /\ (tf = 1 \/ tf = 5 \/ tf = 10)%Z.
Proof.
  unfold subscribed, PAIRS, TIMEFRAMES.
  rewrite !elem_of_cons, !elem_of_nil. tauto.
Qed.

Lemma init_series (pair : string) (tf : Z) :
  (subscribed pair tf -> series pair tf init = Ok [])
  /\ (~ subscribed pair tf -> series pair tf init = Raise KeyError).
Proof.
  rewrite subscribed_cases. split.
  - intros [[-> | [-> | ->]] [-> | [-> | ->]]]; vm_compute; reflexivity.
  - intros Hn. unfold series, init. simpl.
    destruct (decide (pair = "frxXAUUSD")) as [-> | H1];
      [| rewrite lookup_insert_ne by done;
         destruct (decide (pair = "R_75")) as [-> | H2];
         [| rewrite lookup_insert_ne by done;
            destruct (decide (pair = "R_75S")) as [-> | H3];
            [| by rewrite lookup_insert_ne, lookup_empty by done]]];
      rewrite ?lookup_insert_ne by done; rewrite lookup_insert_eq;
      (destruct (decide (tf = 1%Z)) as [-> | T1]; [tauto |];
       destruct (decide (tf = 5%Z)) as [-> | T2]; [tauto |];
       destruct (decide (tf = 10%Z)) as [-> | T3]; [tauto |];
       by rewrite !lookup_insert_ne, lookup_empty by done).
Qed.

Lemma append_length (df : dataframe) (c : candle) :
  0 < length (append df c) <= CAPACITY.
Proof.
  unfold append, pd.concat. rewrite tail_length, length_app.
  change (length [c]) with 1. unfold CAPACITY. lia.
Qed.

Lemma store_ok_data (st st' : bot) : data st' = data st -> store_ok st -> store_ok st'.
Proof.
  intros Hd Hok pair tf. rewrite (series_data _ _ _ _ Hd). apply Hok.
Qed.

Lemma on_message_store_ok (P : parsers) (E : env) (decoded : result json) (st : bot) :
  store_ok st -> store_ok (on_message P E decoded st).
Proof.
  intros Hok.
  destruct (on_message_cases P E decoded st)
    as [[_ ->] | [(e & _ & ->) | [(symbol & tf & c & e & _ & _ & ->) |
        (symbol & tf & c & df & st1 & Hn & Hdf & Hst & ->)]]];
    try (by apply (store_ok_data st)).
  assert (store_ok st1) as Hok1.
  { destruct (store_candle_inv _ _ _ _ _ Hst) as (df' & Hdf' & Hdf1 & Hother & _).
    intros p t. destruct (decide ((p, t) = (symbol, tf))) as [[= -> ->] | Hne].
    - rewrite Hdf1. split.
      + intros _. eexists. split; [done |]. apply append_length.
      + intros Hns. destruct (Hok symbol tf) as [_ Hk].
        rewrite (Hk Hns) in Hdf. done.
    - rewrite (Hother p t Hne). apply Hok. }
  destruct (combine_price_action_factors (append df c)) as [[s|]|e].
  - apply (store_ok_data st1); [apply send_alert_frame | done].
  - done.
  - by apply (store_ok_data st1).
Qed.

Lemma dispatch_store_ok (P : parsers) (st : bot) (ev : ws_event) :
  store_ok st -> store_ok (dispatch P st ev).
Proof.
  intros Hok. destruct ev as [E|E decoded|error|cs cm].
  - apply (store_ok_data st); [| done]. by apply dispatch_data.
  - simpl. by apply on_message_store_ok.
  - done.
  - done.
Qed.

Lemma foldl_invariant {A} (I : bot -> Prop) (step : bot -> A -> bot) (l : list A) (st : bot) :
  (forall st a, I st -> I (step st a)) -> I st -> I (foldl step st l).
Proof.
  intros Hstep. revert st. induction l as [|a l IH]; intros st Hst; simpl; [done |].
  apply IH. by apply Hstep.
Qed.

Lemma connect_once_store_ok (P : parsers) (st : bot) (s : session) :
  store_ok st -> store_ok (connect_once P st s).
Proof.
  intros Hok. unfold connect_once.
  assert (store_ok (foldl (dispatch P) (emit (Connect DERIV_WS) (set_ws (S (ws st)) st))
                      (events s))) as H.
  { apply foldl_invariant; [intros; by apply dispatch_store_ok |].
    by apply (store_ok_data st). }
  destruct (crash s); [by apply (store_ok_data _ _ eq_refl) in H | done].
Qed.

(** X11.  However the bot runs (connections, feed events well formed or
    not, errors, closes and crashes), its store keeps a series for each of
    the nine subscribed keys and for no other key, and no series ever
    holds more than 100 candles: the lookups of line 140 never miss. *)
Theorem X11_store_shape_invariant (P : parsers) (sessions : list session) :
  store_ok init /\ store_ok (ws_thread P sessions init).
Proof.
  assert (store_ok init) as Hinit.
  { intros pair tf. destruct (init_series pair tf) as [Hy Hn]. split; [| done].
    intros Hs. exists []. split; [by apply Hy | simpl; lia]. }
  split; [done |]. unfold ws_thread.
  apply foldl_invariant; [| done].
  intros st s Hok. destruct (active st); [by apply connect_once_store_ok | done].
Qed.

Lemma X11_store_shape_invariant_witness :
  subscribed "R_75" 1
  /\ exists df, series "R_75" 1 (ws_thread Decimal.P reconnect_gap init) = Ok df
       /\ length df <= CAPACITY.
Proof.
  assert (subscribed "R_75" 1) as Hs by (apply subscribed_cases; auto).
  split; [exact Hs |].
  exact (proj1 (proj2 (X11_store_shape_invariant Decimal.P reconnect_gap) "R_75" 1%Z) Hs).
Defined.

(** ** What the handlers add to the trace *)

Lemma foldl_emit_trace (rs : list request) (st : bot) :
  trace (foldl (fun st r => emit (WsSend r) st) st rs) = trace st ++ (WsSend <$> rs)
  /\ connected_sent (foldl (fun st r => emit (WsSend r) st) st rs) = connected_sent st.
Proof.
  revert st. induction rs as [|r rs IH]; intros st; simpl.
  - by rewrite app_nil_r.
  - destruct (IH (emit (WsSend r) st)) as [-> ->]. simpl.
    by rewrite <- app_assoc.
Qed.

Lemma on_message_trace (P : parsers) (E : env) (decoded : result json) (st : bot) :
  connected_sent (on_message P E decoded st) = connected_sent st
  /\ exists l, trace (on_message P E decoded st) = trace st ++ l
       /\ length l <= 1
       /\ Forall (fun e => is_connected_note e = false) l.
Proof.
  assert (forall st0 : bot, connected_sent st0 = connected_sent st -> trace st0 = trace st ->
            forall e, connected_sent (log_message_error e st0) = connected_sent st
              /\ exists l, trace (log_message_error e st0) = trace st ++ l
                   /\ length l <= 1
                   /\ Forall (fun e => is_connected_note e = false) l) as Hlog.
  { intros st0 Hc Ht e. split; [done |]. simpl. rewrite Ht.
    eexists. split; [done |]. split; [simpl; lia | by repeat constructor]. }
  assert (connected_sent st = connected_sent st
          /\ exists l, trace st = trace st ++ l /\ length l <= 1
               /\ Forall (fun e => is_connected_note e = false) l) as Hsame.
  { split; [done |]. exists []. rewrite app_nil_r. split; [done |].
    split; [simpl; lia | constructor]. }
  destruct (on_message_cases P E decoded st)
    as [[_ ->] | [(e & _ & ->) | [(symbol & tf & c & e & _ & _ & ->) |
        (symbol & tf & c & df & st1 & Hn & Hdf & Hst & ->)]]];
    [done | by apply Hlog | by apply Hlog |].
  destruct (store_candle_inv _ _ _ _ _ Hst) as (_ & _ & _ & _ & _ & Hc1 & Ht1).
  destruct (combine_price_action_factors (append df c)) as [[s|]|e].
  - unfold send_alert. destruct (rate_limited _ _ _); [by rewrite Hc1, Ht1 |].
    unfold deliver. destruct (tg_ok E); simpl; rewrite Hc1, Ht1;
      (split; [done |]; eexists; split; [done |];
       split; [simpl; lia | by repeat constructor]).
  - by rewrite Hc1, Ht1.
  - by apply Hlog.
Qed.

Lemma filter_no_note (l : list effect) :
  Forall (fun e => is_connected_note e = false) l ->
  filter (fun e => is_connected_note e = true) l = [].
Proof.
  induction 1 as [|e l He _ IH]; [done |].
  by rewrite filter_cons_False by congruence.
Qed.

Lemma note_ok_ext (st st' : bot) (l : list effect) :
  trace st' = trace st ++ l ->
  Forall (fun e => is_connected_note e = false) l ->
  connected_sent st' = connected_sent st ->
  note_ok st -> note_ok st'.
Proof.
  unfold note_ok. intros -> Hl -> <-.
  rewrite filter_app, length_app, (filter_no_note l Hl). simpl. lia.
Qed.

Lemma on_open_note_ok (E : env) (st : bot) : note_ok st -> note_ok (on_open E st).1.
Proof.
  intros Hok. unfold on_open. cbv zeta.
  change (connected_sent (emit _ (emit _ st))) with (connected_sent st).
  destruct (connected_sent st) eqn:Hc; [| destruct (tg_ok E)]; cbn [fst].
  - eapply (note_ok_ext st); [| | | done].
    + rewrite (proj1 (foldl_emit_trace _ _)). simpl. rewrite <- !app_assoc. done.
    + simpl. by repeat constructor.
    + by rewrite (proj2 (foldl_emit_trace _ _)).
  - unfold note_ok in *. rewrite (proj2 (foldl_emit_trace _ _)).
    rewrite (proj1 (foldl_emit_trace _ _)).
    cbn [trace emit set_connected_sent connected_sent].
    rewrite Hc in Hok. rewrite !filter_app, !length_app, Hok.
    rewrite (filter_no_note (WsSend <$> subscriptions))
      by (apply Forall_fmap, Forall_true; done).
    reflexivity.
  - eapply (note_ok_ext st); [| | | done].
    + simpl. rewrite <- !app_assoc. done.
    + by repeat constructor.
    + done.
Qed.

Lemma emit_note_ok (e : effect) (st : bot) :
  is_connected_note e = false -> note_ok st -> note_ok (emit e st).
Proof.
  intros He. apply (note_ok_ext st (emit e st) [e]); [done | by repeat constructor | done].
Qed.

Lemma dispatch_note_ok (P : parsers) (st : bot) (ev : ws_event) :
  note_ok st -> note_ok (dispatch P st ev).
Proof.
  intros Hok. destruct ev as [E|E decoded|error|cs cm]; simpl.
  - pose proof (on_open_note_ok E st Hok) as Ho.
    destruct (on_open E st) as [st1 [e|]]; simpl in *; [| done].
    by apply emit_note_ok.
  - destruct (on_message_trace P E decoded st) as (Hc & l & Ht & _ & Hl).
    by apply (note_ok_ext st _ l).
  - by apply emit_note_ok.
  - by repeat apply emit_note_ok.
Qed.

Lemma connect_once_note_ok (P : parsers) (st : bot) (s : session) :
  note_ok st -> note_ok (connect_once P st s).
Proof.
  intros Hok. unfold connect_once.
  assert (note_ok (foldl (dispatch P) (emit (Connect DERIV_WS) (set_ws (S (ws st)) st))
                     (events s))) as H.
  { apply foldl_invariant; [intros; by apply dispatch_note_ok |].
    by apply (emit_note_ok _ (set_ws _ st)). }
  destruct (crash s); [by repeat apply emit_note_ok | done].
Qed.

(** X12.  The "connected" notification is sent once at most in the life
    of the bot, however often it reconnects, and the flag [connected_sent]
    tells whether it has been sent. *)
Theorem X12_connected_note_once (P : parsers) (sessions : list session) :
  let st := ws_thread P sessions init in
  length (filter (fun e => is_connected_note e = true) (trace st)) <= 1
  /\ (connected_sent st = true <->
      length (filter (fun e => is_connected_note e = true) (trace st)) = 1).
Proof.
  intros st.
  assert (note_ok st) as Hok.
  { unfold st, ws_thread. apply foldl_invariant; [| done].
    intros st0 s H. destruct (active st0); [by apply connect_once_note_ok | done]. }
  unfold note_ok in Hok. rewrite Hok.
  destruct (connected_sent st); split; try lia; split; done.
Qed.

(** ** Opening a connection *)

Lemma subscriptions_spec (r : request) :
  r ∈ subscriptions <->
  exists pair tf, subscribed pair tf /\ r = TicksHistory pair 1 100 (tf * 60)%Z 1.
Proof.
  split.
  - intros Hr. unfold subscriptions, PAIRS, TIMEFRAMES in Hr. simpl in Hr.
    repeat (apply elem_of_cons in Hr as [-> | Hr];
            [eexists _, _; split; [apply subscribed_cases | reflexivity]; auto 6 |]).
    by apply elem_of_nil in Hr.
  - intros (pair & tf & Hs & ->). apply subscribed_cases in Hs.
    destruct Hs as [[-> | [-> | ->]] [-> | [-> | ->]]];
      unfold subscriptions, PAIRS, TIMEFRAMES; simpl; rewrite !elem_of_cons; auto 12.
Qed.

(** X13.  What [on_open] sends.  It authorizes first.  When the
    notification has been sent before, or is delivered now, it then asks
    for each of the nine subscribed keys, in order, for 100 candles of
    history and the live updates, with the granularity 60 times the
    timeframe, and sets [connected_sent].  When the notification cannot be
    delivered, the handler leaves with the exception: nothing is
    subscribed on this connection and [connected_sent] stays unset. *)
Theorem X13_on_open_outcomes (E : env) (st : bot) :
  let st1 := (on_open E st).1 in
  let hello := [Log INFO "Connected to Deriv WS" None; WsSend (Authorize DERIV_TOKEN)] in
  (forall r, r ∈ subscriptions <->
     exists pair tf, subscribed pair tf /\ r = TicksHistory pair 1 100 (tf * 60)%Z 1)
  /\ length subscriptions = 9
  /\ if connected_sent st then
       (on_open E st).2 = None /\ connected_sent st1 = true
       /\ trace st1 = trace st ++ hello ++ (WsSend <$> subscriptions)
     else if tg_ok E then
       (on_open E st).2 = None /\ connected_sent st1 = true
       /\ trace st1 =
            trace st ++ hello
            ++ [TelegramSend CHAT_ID "✅ Bot Connected and ready to analyze signals" None]
            ++ (WsSend <$> subscriptions)
     else
       (on_open E st).2 = Some DeliveryError /\ connected_sent st1 = false
       /\ trace st1 = trace st ++ hello.
Proof.
  intros st1 hello. split; [apply subscriptions_spec |]. split; [reflexivity |].
  unfold st1, on_open. cbv zeta.
  change (connected_sent (emit _ (emit _ st))) with (connected_sent st).
  destruct (connected_sent st) eqn:Hc; [| destruct (tg_ok E)]; cbn [fst snd].
  - rewrite (proj1 (foldl_emit_trace _ _)), (proj2 (foldl_emit_trace _ _)).
    cbn [trace emit connected_sent]. rewrite <- !app_assoc. done.
  - rewrite (proj1 (foldl_emit_trace _ _)), (proj2 (foldl_emit_trace _ _)).
    cbn [trace emit set_connected_sent connected_sent]. rewrite <- !app_assoc. done.
  - cbn [trace emit connected_sent]. rewrite <- !app_assoc. done.
Qed.

Lemma X13_on_open_outcomes_witness :
  subscribed "R_75S" 10
  /\ WsSend (TicksHistory "R_75S" 1 100 600 1) ∈ trace (on_open (at_time 0 true) init).1.
Proof.
  assert (subscribed "R_75S" 10) as Hs by (apply subscribed_cases; auto).
  split; [exact Hs |].
  pose proof (X13_on_open_outcomes (at_time 0 true) init) as (Hsub & _ & H).
  change (connected_sent init) with false in H.
  change (tg_ok (at_time 0 true)) with true in H.
  destruct H as (_ & _ & ->).
  rewrite !elem_of_app. do 3 right. apply list_elem_of_fmap_2.
  apply Hsub. by exists "R_75S", 10%Z.
Defined.



(** ** Feed events and alerts *)

Lemma append_last (df : dataframe) (c : candle) : last (append df c) = Some c.
Proof.
  unfold append, pd.concat. rewrite last_tail by (unfold CAPACITY; lia).
  apply last_snoc.
Qed.

Lemma append_below_capacity (df : dataframe) (c : candle) :
  length df < CAPACITY -> append df c = df ++ [c].
Proof.
  intros H. unfold append, pd.concat. apply tail_all.
  rewrite length_app. simpl. lia.
Qed.

(** X15.  No alert before the tenth candle: an accepted event that brings
    its series to between two and nine candles is stored, the detector
    raises on the window and the handler logs the error; nothing is sent
    and no key is stamped. *)
Theorem X15_no_alert_before_ten_candles
    (P : parsers) (E : env) (payload : json) (st : bot)
    (symbol : string) (tf : Z) (c : candle) (df : dataframe)
    (Hn : normalize P payload = Ok (Some (symbol, tf, c)))
    (Hdf : series symbol tf st = Ok df)
    (Hlen : 1 <= length df < 9) :
  exists st1,
    store_candle symbol tf c st = Ok st1
    /\ series symbol tf st1 = Ok (df ++ [c])
    /\ on_message P E (Ok payload) st = log_message_error ValueError st1
    /\ sent_signals (on_message P E (Ok payload) st) = sent_signals st
    /\ trace (on_message P E (Ok payload) st)
       = trace st ++ [Log ERROR "Message error: " (Some ValueError)].
Proof.
  destruct (store_candle_series symbol tf c st df Hdf) as (st1 & Hst & Hdf1 & Hsent & Htr).
  rewrite append_below_capacity in Hdf1 by (unfold CAPACITY; lia).
  exists st1. split; [done |]. split; [done |].
  assert (on_message P E (Ok payload) st = log_message_error ValueError st1) as ->.
  { unfold on_message. change (Ok payload ≫= normalize P) with (normalize P payload).
    rewrite Hn, Hst, Hdf1. simpl.
    rewrite combine_short_window_raises; [done |].
    rewrite length_app. simpl. lia. }
  split; [done |]. simpl. by rewrite Hsent, Htr.
Qed.

Lemma X15_no_alert_before_ten_candles_witness :
  let payload := ohlc_event "R_75" (JInt 60) (JStr "1.5") in
  let c := {| time := 1700000000 * SECOND; open := 1.5; high := 2.5; low := 0.5; close := 1.5 |} in
  let c0 := {| time := 1700000000 * SECOND; open := 1.5; high := 2.5; low := 0.5; close := 1.25 |} in
  normalize Decimal.P payload = Ok (Some ("R_75", 1%Z, c))
  /\ series "R_75" 1 streaming = Ok [c0]
  /\ exists st1,
    store_candle "R_75" 1 c streaming = Ok st1
    /\ series "R_75" 1 st1 = Ok ([c0] ++ [c])
    /\ on_message Decimal.P (at_time 0 true) (Ok payload) streaming
       = log_message_error ValueError st1
    /\ sent_signals (on_message Decimal.P (at_time 0 true) (Ok payload) streaming)
       = sent_signals streaming
    /\ trace (on_message Decimal.P (at_time 0 true) (Ok payload) streaming)
       = trace streaming ++ [Log ERROR "Message error: " (Some ValueError)].
Proof.
  intros payload c c0.
  assert (normalize Decimal.P payload = Ok (Some ("R_75", 1%Z, c))) as Hn
    by (vm_compute; reflexivity).
  assert (series "R_75" 1 streaming = Ok [c0]) as Hdf by (vm_compute; reflexivity).
  split; [exact Hn |]. split; [exact Hdf |].
  apply (X15_no_alert_before_ten_candles Decimal.P (at_time 0 true) payload streaming
           "R_75" 1 c [c0] Hn Hdf).
  simpl. lia.
Defined.

Lemma combine_close_in_range (df : dataframe) (c : candle) :
  last df = Some c -> closes_in_range c ->
  combine_price_action_factors df = Ok None
  \/ exists e, combine_price_action_factors df = Raise e.
Proof.
  intros Hlast [Hlc Hch]. unfold combine_price_action_factors.
  destruct (price_action_factors df) as [f|e] eqn:Hf; [| right; by exists e].
  left. simpl. f_equal.
  destruct (factors_enclose_last df f c Hf Hlast) as (Hclose & Hsup & Hres).
  apply emission_inside_band; rewrite Hclose.
  - eapply Qle_trans; eauto.
  - eapply Qle_trans; eauto.
Qed.

Lemma on_message_close_in_range
    (P : parsers) (E : env) (decoded : result json) (st : bot) :
  (forall symbol tf c,
     decoded ≫= normalize P = Ok (Some (symbol, tf, c)) -> closes_in_range c) ->
  sent_signals (on_message P E decoded st) = sent_signals st
  /\ connected_sent (on_message P E decoded st) = connected_sent st
  /\ (trace (on_message P E decoded st) = trace st
      \/ exists e, trace (on_message P E decoded st)
                   = trace st ++ [Log ERROR "Message error: " (Some e)]).
Proof.
  intros Hin.
  destruct (on_message_cases P E decoded st)
    as [[_ ->] | [(e & _ & ->) | [(symbol & tf & c & e & _ & _ & ->) |
        (symbol & tf & c & df & st1 & Hn & Hdf & Hst & ->)]]];
    try (split; [done |]; split; [done |]; (by left) || (right; by eexists)).
  destruct (store_candle_inv _ _ _ _ _ Hst) as (_ & _ & _ & _ & Hsent & Hcs & Htr).
  destruct (combine_close_in_range (append df c) c (append_last df c) (Hin _ _ _ Hn))
    as [-> | [e ->]].
  - rewrite Hsent, Hcs, Htr. split; [done |]. split; [done | by left].
  - simpl. rewrite Hsent, Hcs, Htr. split; [done |]. split; [done |]. right. by exists e.
Qed.

Lemma silent_ext (st st' : bot) (l : list effect) :
  sent_signals st' = sent_signals st ->
  trace st' = trace st ++ l ->
  Forall (fun e => is_alert e = false) l ->
  silent st -> silent st'.
Proof.
  unfold silent. intros -> -> Hl [Hs Ht]. split; [done |].
  by apply Forall_app.
Qed.

Lemma on_open_silent (E : env) (st : bot) : silent st -> silent (on_open E st).1.
Proof.
  intros Hs. unfold on_open. cbv zeta.
  change (connected_sent (emit _ (emit _ st))) with (connected_sent st).
  assert (forall st0 l, sent_signals st0 = sent_signals st -> trace st0 = trace st ++ l ->
            Forall (fun e => is_alert e = false) l ->
            silent (foldl (fun st r => emit (WsSend r) st) st0 subscriptions)) as Hsub.
  { intros st0 l Hss Ht Hl.
    apply (silent_ext st _ (l ++ (WsSend <$> subscriptions))); [| | | done].
    - clear Ht. revert st0 Hss. generalize subscriptions.
      induction l0 as [|r rs IH]; intros st0 Hss; simpl; [done | by apply IH].
    - rewrite (proj1 (foldl_emit_trace _ _)), Ht. by rewrite app_assoc.
    - apply Forall_app. split; [done |]. apply Forall_fmap, Forall_true. done. }
  destruct (connected_sent st); [| destruct (tg_ok E)]; cbn [fst].
  - eapply Hsub; [done | simpl; by rewrite <- app_assoc | by repeat constructor].
  - eapply Hsub; [done | simpl; by rewrite <- !app_assoc | by repeat constructor].
  - eapply (silent_ext st); [done | simpl; by rewrite <- app_assoc | by repeat constructor | done].
Qed.

Lemma emit_silent (e : effect) (st : bot) :
  is_alert e = false -> silent st -> silent (emit e st).
Proof.
  intros He. apply (silent_ext st (emit e st) [e]); [done | done | by repeat constructor].
Qed.

Lemma dispatch_silent (P : parsers) (st : bot) (ev : ws_event) :
  in_range_event P ev -> silent st -> silent (dispatch P st ev).
Proof.
  intros Hev Hs. destruct ev as [E|E decoded|error|cs cm]; simpl.
  - pose proof (on_open_silent E st Hs) as Ho.
    destruct (on_open E st) as [st1 [e|]]; simpl in *; [| done].
    by apply emit_silent.
  - destruct (on_message_close_in_range P E decoded st Hev) as (Hsent & _ & [Ht | [e Ht]]).
    + apply (silent_ext st _ []); [done | by rewrite app_nil_r | done | done].
    + by apply (silent_ext st _ [Log ERROR "Message error: " (Some e)]);
        [| | repeat constructor |].
  - by apply emit_silent.
  - by repeat apply emit_silent.
Qed.

Lemma foldl_invariant_Forall {A} (I : bot -> Prop) (Q : A -> Prop)
    (step : bot -> A -> bot) (l : list A) (st : bot) :
  (forall st a, Q a -> I st -> I (step st a)) -> Forall Q l -> I st -> I (foldl step st l).
Proof.
  intros Hstep Hl. revert st. induction Hl as [|a l Ha _ IH]; intros st Hst; simpl; [done |].
  apply IH. by apply Hstep.
Qed.

(** X16.  On a feed whose candles close within their own range the bot
    never alerts: however long it runs and whatever else happens
    (malformed events, errors, reconnections), no Telegram alert is sent
    and no dedup key is ever stamped.  The latest candle belongs to the
    window that defines support and resistance, so its close cannot leave
    the band. *)
Theorem X16_no_alert_on_in_range_feed (P : parsers) (sessions : list session)
    (Hfeed : in_range_feed P sessions) :
  sent_signals (ws_thread P sessions init) = ∅
  /\ Forall (fun e => is_alert e = false) (trace (ws_thread P sessions init)).
Proof.
  change (silent (ws_thread P sessions init)). unfold ws_thread.
  apply (foldl_invariant_Forall silent
           (fun s => Forall (in_range_event P) (events s))); [| done | by split].
  intros st s Hs Hsil. destruct (active st); [| done].
  unfold connect_once.
  assert (silent (foldl (dispatch P) (emit (Connect DERIV_WS) (set_ws (S (ws st)) st))
                    (events s))) as H.
  { apply (foldl_invariant_Forall silent (in_range_event P)); [| done |].
    - intros st0 ev Hev Hs0. by apply dispatch_silent.
    - by apply (emit_silent _ (set_ws _ st)). }
  destruct (crash s); [by repeat apply emit_silent | done].
Qed.

Lemma X16_no_alert_on_in_range_feed_witness :
  in_range_feed Decimal.P in_range_sessions
  /\ series "R_75" 1 (ws_thread Decimal.P in_range_sessions init)
     = Ok [ {| time := 1700000000 * SECOND; open := 1.5; high := 2.5; low := 0.5; close := 1.25 |};
            {| time := 1700000000 * SECOND; open := 1.5; high := 2.5; low := 0.5; close := 1.5 |} ]
  /\ sent_signals (ws_thread Decimal.P in_range_sessions init) = ∅
  /\ Forall (fun e => is_alert e = false) (trace (ws_thread Decimal.P in_range_sessions init)).
Proof.
  assert (in_range_feed Decimal.P in_range_sessions) as Hfeed.
  { apply Forall_cons_2; [| apply Forall_nil]. simpl.
    repeat apply Forall_cons_2; try apply Forall_nil; try exact I;
      intros symbol tf c Hn; vm_compute in Hn;
      injection Hn as <- <- <-; split; vm_compute; discriminate.
    all: exact I. }
  split; [exact Hfeed |]. split; [vm_compute; reflexivity |].
  exact (X16_no_alert_on_in_range_feed Decimal.P in_range_sessions Hfeed).
Defined.

(** ** The closes the pattern looks at *)

Lemma tail_lookup {A} (n i : nat) (l : list A) :
  n <= length l -> pd.tail n l !! i = l !! (length l - n + i).
Proof. intros H. unfold pd.tail. apply lookup_drop. Qed.

(** X17.  The head-and-shoulders test reads three closes only: the
    seventh, the fifth and the third from the end.  Two windows of at
    least seven candles that agree on these three closes get the same
    answer; the latest close plays no part. *)
Theorem X17_head_shoulders_reads_three_closes (df df' : dataframe)
    (Hlen : 7 <= length df) (Hlen' : 7 <= length df')
    (H7 : (close <$> df) !! (length df - 7) = (close <$> df') !! (length df' - 7))
    (H5 : (close <$> df) !! (length df - 5) = (close <$> df') !! (length df' - 5))
    (H3 : (close <$> df) !! (length df - 3) = (close <$> df') !! (length df' - 3)) :
  detect_head_shoulders df = detect_head_shoulders df'.
Proof.
  destruct (head_shoulders_closes df Hlen) as (c0 & c2 & c4 & H0 & H2 & H4).
  rewrite (detect_head_shoulders_long df c0 c2 c4) by done.
  rewrite (detect_head_shoulders_long df' c0 c2 c4); [done | done | | |].
  - rewrite tail_lookup in H0 |- * by (rewrite length_fmap; lia).
    rewrite length_fmap in H0 |- *. rewrite Nat.add_0_r in H0 |- *. by rewrite <- H7.
  - rewrite tail_lookup in H2 |- * by (rewrite length_fmap; lia).
    rewrite length_fmap in H2 |- *.
    replace (length df - 7 + 2) with (length df - 5) in H2 by lia.
    replace (length df' - 7 + 2) with (length df' - 5) by lia. by rewrite <- H5.
  - rewrite tail_lookup in H4 |- * by (rewrite length_fmap; lia).
    rewrite length_fmap in H4 |- *.
    replace (length df - 7 + 4) with (length df - 3) in H4 by lia.
    replace (length df' - 7 + 4) with (length df' - 3) by lia. by rewrite <- H3.
Qed.

Lemma X17_head_shoulders_reads_three_closes_witness :
  last (take 19 rising_window ++ [bar 90 80 85]) <> last rising_window
  /\ detect_head_shoulders (take 19 rising_window ++ [bar 90 80 85])
     = detect_head_shoulders rising_window.
Proof.
  split; [vm_compute; discriminate |].
  apply X17_head_shoulders_reads_three_closes.
  - vm_compute. lia.
  - vm_compute. lia.
  - vm_compute. reflexivity.
  - vm_compute. reflexivity.
  - vm_compute. reflexivity.
Defined.
